(** * MCP7940 real-time-clock driver: register codec and configuration logic

    A shallow embedding of [mcp7940.c] / [mcp7940.h].  Bytes ([unsigned char])
    are integers in [Z] with the wrap-around of every narrowing conversion
    written out ([u8]); the C bit operators are [Z.land], [Z.lor], [Z.lnot],
    [Z.shiftl] and [Z.shiftr].  The driver talks to the device through the
    TWI primitives of the platform layer; every primitive call is recorded in
    a bus log and shown to the device, so that statements about "which bus
    transactions were issued" are statements about that log. *)

From Stdlib Require Import ZArith List String Bool Lia.
Import ListNotations.
Local Open Scope Z_scope.

(** ** Machine bytes *)

(** Conversion of an [int] expression to [unsigned char]. *)
Definition u8 (x : Z) : Z := x mod 256.

Definition is_byte (x : Z) : Prop := 0 <= x <= 255.

(** ** Register map and bit masks ([mcp7940.h]) *)

Definition MCP7940_ADDRESS : Z := 0x6F.
Definition MCP7940_IO_TIMEOUT_MS : Z := 1.
Definition MCP7940_OSC_ENABLE_MS : Z := 1000.

Definition MCP7940_RTCSEC : Z := 0x00.
Definition MCP7940_ST_bm : Z := 0x80.
Definition MCP7940_SECTEN_bm : Z := 0x70.

Definition MCP7940_RTCMIN : Z := 0x01.
Definition MCP7940_MINTEN_bm : Z := 0x70.

Definition MCP7940_RTCHOUR : Z := 0x02.
Definition MCP7940_FORMAT_bm : Z := 0x40.
Definition MCP7940_HRTEN_bm : Z := 0x30.

Definition MCP7940_RTCWKDAY : Z := 0x03.
Definition MCP7940_OSCRUN_bm : Z := 0x20.
Definition MCP7940_PWRFAIL_bm : Z := 0x10.
Definition MCP7940_VBATEN_bm : Z := 0x08.

Definition MCP7940_RTCDATE : Z := 0x04.
Definition MCP7940_DATETEN_bm : Z := 0x30.

Definition MCP7940_RTCMTH : Z := 0x05.
Definition MCP7940_LPYR_bm : Z := 0x20.
Definition MCP7940_MTHTEN_bm : Z := 0x10.
Definition MCP7940_LPYR_bp : Z := 5.

Definition MCP7940_RTCYEAR : Z := 0x06.
Definition MCP7940_YRTEN_bm : Z := 0xF0.

Definition MCP7940_CONTROL : Z := 0x07.
Definition MCP7940_OUT_bm : Z := 0x80.
Definition MCP7940_ALM1EN_bm : Z := 0x20.
Definition MCP7940_ALM0EN_bm : Z := 0x10.
Definition MCP7940_EXTOSC_bm : Z := 0x08.
Definition MCP7940_SQWFS1_bm : Z := 0x02.
Definition MCP7940_SQWFS0_bm : Z := 0x01.
Definition MCP7940_SQWFS_1HZ : Z := 0x00.

Definition MCP7940_OSCTRIM : Z := 0x08.
Definition MCP7940_SIGN_bm : Z := 0x80.

Definition MCP7940_PWRDNMIN : Z := 0x18.
Definition MCP7940_PWRUPMIN : Z := 0x1C.
Definition MCP7940_PWRDNHOUR : Z := 0x19.
Definition MCP7940_PWRUPHOUR : Z := 0x1D.
Definition MCP7940_PWRDNDATE : Z := 0x1A.
Definition MCP7940_PWRUPDATE : Z := 0x1E.
Definition MCP7940_PWRWEEKDAY_bp : Z := 5.
Definition MCP7940_PWRDNMTH : Z := 0x1B.
Definition MCP7940_PWRUPMTH : Z := 0x1F.

(** ** Enumerations ([mcp7940.h]) *)

Inductive MCP7940_Error := MCP7940_Error_None | MCP7940_Error_Fail.

Definition MCP7940_Error_value (e : MCP7940_Error) : Z :=
  match e with MCP7940_Error_None => 0 | MCP7940_Error_Fail => 1 end.

Inductive MCP7940_Mode := MCP7940_Mode_Disable | MCP7940_Mode_Enable.

Definition MCP7940_Mode_value (m : MCP7940_Mode) : Z :=
  match m with MCP7940_Mode_Disable => 0 | MCP7940_Mode_Enable => 1 end.

Inductive MCP7940_Trim := MCP7940_Trim_Substract | MCP7940_Trim_Add.

Inductive MCP7940_LeapYear := MCP7940_LeapYear_False | MCP7940_LeapYear_True.

Definition MCP7940_LeapYear_value (l : MCP7940_LeapYear) : Z :=
  match l with MCP7940_LeapYear_False => 0 | MCP7940_LeapYear_True => 1 end.

Inductive MCP7940_Register :=
| MCP7940_Register_Current_Time
| MCP7940_Register_Power_Down_Time
| MCP7940_Register_Power_Up_Time.

(** ** Weekday labels *)

Local Open Scope string_scope.

(** [const char weeksdays[][4]]: eight rows of three characters and a
    terminating NUL each. *)
Definition weeksdays : list string :=
  ["MON"; "TUE"; "WED"; "THU"; "FRI"; "SAT"; "SUN"; "???"].

Local Close Scope string_scope.

(** The index expression of [mcp7940_weekday_string]; [day - 1] is computed
    in [int], so [day = 0] gives [-1], whose low three bits are all set. *)
Definition weekday_index (day : Z) : Z := Z.land 0x07 (day - 1).

(** [mcp7940_weekday_string]: the row of [weeksdays] at [weekday_index];
    [None] stands for an access outside the table. *)
Definition mcp7940_weekday_string (day : Z) : option string :=
  nth_error weeksdays (Z.to_nat (weekday_index day)).

(** ** Register codec *)

(** [mcp7940_tobinary]: the sum is computed in [unsigned long] and narrowed
    to [unsigned char] on return. *)
Definition mcp7940_tobinary (value mask : Z) : Z :=
  u8 (Z.shiftr (Z.land mask value) 4 * 10 + Z.land 0x0F value).

(** [mcp7940_tobcd]: computed in [int], narrowed on return. *)
Definition mcp7940_tobcd (value : Z) : Z :=
  u8 (Z.lor (Z.shiftl (value / 10) 4) (value mod 10)).

(** The BCD fields of the time-keeping registers with the tens mask the
    driver passes for each of them and the range of magnitudes each may
    hold. *)
Inductive BcdField :=
| Field_Second | Field_Minute | Field_Hour | Field_Day | Field_Month | Field_Year.

Definition tens_mask (f : BcdField) : Z :=
  match f with
  | Field_Second => MCP7940_SECTEN_bm
  | Field_Minute => MCP7940_MINTEN_bm
  | Field_Hour => MCP7940_HRTEN_bm
  | Field_Day => MCP7940_DATETEN_bm
  | Field_Month => MCP7940_MTHTEN_bm
  | Field_Year => MCP7940_YRTEN_bm
  end.

Definition legal_magnitude (f : BcdField) (m : Z) : Prop :=
  match f with
  | Field_Second | Field_Minute => 0 <= m <= 59
  | Field_Hour => 0 <= m <= 23
  | Field_Day => 1 <= m <= 31
  | Field_Month => 1 <= m <= 12
  | Field_Year => 0 <= m <= 99
  end.

(** A mask covers the tens digit of [m] when every bit of that digit, at its
    place in the upper nibble, is selected by the mask. *)
Definition covers_tens (mask m : Z) : Prop :=
  Z.land mask (Z.shiftl (m / 10) 4) = Z.shiftl (m / 10) 4.

(** ** The two-wire bus *)

Inductive TWI_Operation := TWI_WRITE | TWI_READ.

Inductive TWI_Acknowledge := TWI_ACK | TWI_NACK.

(** One call of a platform primitive, as seen on the bus.  [Ev_get] carries
    the byte the device returned. *)
Inductive BusEvent :=
| Ev_start
| Ev_address (address : Z) (operation : TWI_Operation)
| Ev_set (data : Z)
| Ev_get (data : Z) (acknowledge : TWI_Acknowledge)
| Ev_stop
| Ev_wait (ms : Z).

(** The device at the other end of the bus: it observes every primitive and
    decides which byte a receive returns.  Nothing is assumed about it; in
    particular it need not store what is written to it. *)
Record Device := {
  dev_state : Type;
  dev_react : BusEvent -> dev_state -> dev_state;
  dev_drive : dev_state -> Z
}.

(** What the driver acts on: the log of primitives issued so far and the
    device they were issued to. *)
Record World (D : Device) := {
  bus_log : list BusEvent;
  device : dev_state D
}.

Arguments bus_log {D} _.
Arguments device {D} _.

Definition replay (D : Device) (evs : list BusEvent) (d : dev_state D)
  : dev_state D :=
  fold_left (fun s e => dev_react D e s) evs d.

(** A register access as a whole: the unit the driver composes the
    primitives into. *)
Inductive Transaction :=
| Tx_write (address data : Z)
| Tx_read (address data : Z).

Definition frame (t : Transaction) : list BusEvent :=
  match t with
  | Tx_write address data =>
      [Ev_start; Ev_address MCP7940_ADDRESS TWI_WRITE; Ev_set address;
       Ev_set data; Ev_stop; Ev_wait MCP7940_IO_TIMEOUT_MS]
  | Tx_read address data =>
      [Ev_start; Ev_address MCP7940_ADDRESS TWI_WRITE; Ev_set address;
       Ev_address MCP7940_ADDRESS TWI_READ; Ev_get data TWI_NACK;
       Ev_stop; Ev_wait MCP7940_IO_TIMEOUT_MS]
  end.

Definition tx_address (t : Transaction) : Z :=
  match t with
  | Tx_write address _ | Tx_read address _ => address
  end.

Definition frames (ts : list Transaction) : list BusEvent :=
  flat_map frame ts.

(** The world once the transactions [ts] have gone over the bus. *)
Definition after {D : Device} (w : World D) (ts : list Transaction) : World D :=
  {| bus_log := bus_log w ++ frames ts;
     device := replay D (frames ts) (device w) |}.

(** The byte a read of [address] obtains from a device in state [d]. *)
Definition read_value (D : Device) (address : Z) (d : dev_state D) : Z :=
  u8 (dev_drive D
        (replay D [Ev_start; Ev_address MCP7940_ADDRESS TWI_WRITE;
                   Ev_set address; Ev_address MCP7940_ADDRESS TWI_READ] d)).

(** ** Build-time configuration *)

Inductive MFP_Mode :=
| MCP7940_MFP_MODE_OUTPUT
| MCP7940_MFP_MODE_SQUARE_WAVE
| MCP7940_MFP_MODE_ALARM.

(** The preprocessor switches of [mcp7940.h] that select code in
    [mcp7940.c]. *)
Record Config := {
  MCP7940_USE_EXTOSC : bool;
  MCP7940_BATTERY_BACKUP_EN : bool;
  MCP7940_MFP_MODE : MFP_Mode;
  MCP7940_SQW_CRSTRIM_EN : bool;
  MCP7940_MFP_SQUARE_WAVE_PRESCALER : Z;
  MCP7940_MFP_ALARM_MODE : Z
}.

(** The header's defaults: crystal oscillator, no battery backup, the
    multi-function pin as a plain output. *)
Definition default_config : Config :=
  {| MCP7940_USE_EXTOSC := false;
     MCP7940_BATTERY_BACKUP_EN := false;
     MCP7940_MFP_MODE := MCP7940_MFP_MODE_OUTPUT;
     MCP7940_SQW_CRSTRIM_EN := false;
     MCP7940_MFP_SQUARE_WAVE_PRESCALER := MCP7940_SQWFS_1HZ;
     MCP7940_MFP_ALARM_MODE := Z.lor MCP7940_ALM1EN_bm MCP7940_ALM0EN_bm |}.

(** ** Time and date records *)

(** Modelled from the spec: [FORMAT_Time], [FORMAT_Date] and
    [FORMAT_DateTime] are declared in [shared/format/time.h], which is not
    part of the driver's sources; the fields are the ones the driver
    accesses, holding binary magnitudes. *)
Record FORMAT_Time := { hour : Z; minute : Z; second : Z }.

Record FORMAT_Date := { day : Z; month : Z; year : Z }.

Record FORMAT_DateTime := { time : FORMAT_Time; date : FORMAT_Date }.

Definition set_hour (v : Z) (t : FORMAT_Time) : FORMAT_Time :=
  {| hour := v; minute := minute t; second := second t |}.
Definition set_minute (v : Z) (t : FORMAT_Time) : FORMAT_Time :=
  {| hour := hour t; minute := v; second := second t |}.
Definition set_second (v : Z) (t : FORMAT_Time) : FORMAT_Time :=
  {| hour := hour t; minute := minute t; second := v |}.

Definition set_day (v : Z) (d : FORMAT_Date) : FORMAT_Date :=
  {| day := v; month := month d; year := year d |}.
Definition set_month (v : Z) (d : FORMAT_Date) : FORMAT_Date :=
  {| day := day d; month := v; year := year d |}.
Definition set_year (v : Z) (d : FORMAT_Date) : FORMAT_Date :=
  {| day := day d; month := month d; year := v |}.

(** Modelled from the spec: the result of the validation collaborator
    ([utils/time/validate.h], not part of the driver's sources), valid or
    invalid. *)
Inductive RETURN_Status := RETURN_Valid | RETURN_Invalid.

(** Modelled from the spec: a validator checking the ranges of the data
    model, hour 0-23, minute and second 0-59. *)
Definition range_validate_time (t : FORMAT_Time) : RETURN_Status :=
  if (0 <=? hour t) && (hour t <=? 23) && (0 <=? minute t) && (minute t <=? 59)
     && (0 <=? second t) && (second t <=? 59)
  then RETURN_Valid else RETURN_Invalid.

(** Modelled from the spec: a validator checking the ranges of the data
    model, day 1-31, month 1-12, year 0-99. *)
Definition range_validate_date (d : FORMAT_Date) : RETURN_Status :=
  if (1 <=? day d) && (day d <=? 31) && (1 <=? month d) && (month d <=? 12)
     && (0 <=? year d) && (year d <=? 99)
  then RETURN_Valid else RETURN_Invalid.

(** ** The platform the driver is built for *)

(** Everything the driver takes from outside its own sources: the device on
    the bus, the build-time configuration and the two validators of
    [utils/time/validate.h]. *)
Class Platform := {
  bus_device : Device;
  config : Config;
  validate_time : FORMAT_Time -> RETURN_Status;
  validate_date : FORMAT_Date -> RETURN_Status
}.

(** ** Bus computations *)

(** A driver routine is a function of the world it runs in. *)
Definition Bus `{Platform} (A : Type) : Type :=
  World bus_device -> A * World bus_device.

Definition ret `{Platform} {A : Type} (a : A) : Bus A := fun w => (a, w).

Definition bind `{Platform} {A B : Type} (c : Bus A) (k : A -> Bus B) : Bus B :=
  fun w => let (a, w') := c w in k a w'.

Notation "x <- c ;; k" := (bind c (fun x => k))
  (at level 61, c at next level, right associativity).
Notation "c ;; k" := (bind c (fun _ => k))
  (at level 61, right associativity).

Section Driver.

Context {P : Platform}.

(** Issue one primitive: log it and let the device see it. *)
Definition issue (e : BusEvent) : Bus unit :=
  fun w => (tt, {| bus_log := bus_log w ++ [e];
                   device := dev_react bus_device e (device w) |}).

(** Modelled from the spec: the Bus Adapter contract (start, address for
    write or read, send byte, receive byte with an acknowledge policy, stop)
    and the settle delay; the platform layer [hal/.../twi/twi.h] and
    [utils/systick/systick.h] are not part of the driver's sources. *)
Definition twi_start : Bus unit := issue Ev_start.

Definition twi_address (address : Z) (operation : TWI_Operation) : Bus unit :=
  issue (Ev_address address operation).

Definition twi_set (data : Z) : Bus unit := issue (Ev_set data).

Definition twi_get (acknowledge : TWI_Acknowledge) : Bus Z :=
  fun w =>
    let data := u8 (dev_drive bus_device (device w)) in
    (data, {| bus_log := bus_log w ++ [Ev_get data acknowledge];
              device := dev_react bus_device (Ev_get data acknowledge)
                          (device w) |}).

Definition twi_stop : Bus unit := issue Ev_stop.

Definition systick_timer_wait_ms (ms : Z) : Bus unit := issue (Ev_wait ms).

(** *** Register access *)

Definition mcp7940_write (address data : Z) : Bus unit :=
  twi_start ;;
  twi_address MCP7940_ADDRESS TWI_WRITE ;;
  twi_set address ;;
  twi_set data ;;
  twi_stop ;;
  systick_timer_wait_ms MCP7940_IO_TIMEOUT_MS.

Definition mcp7940_read (address : Z) : Bus Z :=
  twi_start ;;
  twi_address MCP7940_ADDRESS TWI_WRITE ;;
  twi_set address ;;
  twi_address MCP7940_ADDRESS TWI_READ ;;
  temp <- twi_get TWI_NACK ;;
  twi_stop ;;
  systick_timer_wait_ms MCP7940_IO_TIMEOUT_MS ;;
  ret temp.

Definition mcp7940_data (address mask : Z) : Bus Z :=
  value <- mcp7940_read address ;;
  ret (mcp7940_tobinary value mask).

(** *** Configuration control *)

Definition mcp7940_battery (mode : MCP7940_Mode) : Bus unit :=
  temp <- mcp7940_read MCP7940_RTCWKDAY ;;
  match mode with
  | MCP7940_Mode_Enable =>
      mcp7940_write MCP7940_RTCWKDAY (u8 (Z.lor MCP7940_VBATEN_bm temp))
  | MCP7940_Mode_Disable =>
      mcp7940_write MCP7940_RTCWKDAY
        (u8 (Z.land (Z.lnot MCP7940_VBATEN_bm) temp))
  end.

Definition mcp7940_oscillator (mode : MCP7940_Mode) : Bus unit :=
  if MCP7940_USE_EXTOSC config then
    temp <- mcp7940_read MCP7940_CONTROL ;;
    match mode with
    | MCP7940_Mode_Enable =>
        mcp7940_write MCP7940_CONTROL (u8 (Z.lor MCP7940_EXTOSC_bm temp))
    | MCP7940_Mode_Disable =>
        mcp7940_write MCP7940_CONTROL
          (u8 (Z.land (Z.lnot MCP7940_EXTOSC_bm) temp))
    end
  else
    temp <- mcp7940_read MCP7940_RTCSEC ;;
    match mode with
    | MCP7940_Mode_Enable =>
        mcp7940_write MCP7940_RTCSEC (u8 (Z.lor MCP7940_ST_bm temp))
    | MCP7940_Mode_Disable =>
        mcp7940_write MCP7940_RTCSEC (u8 (Z.land (Z.lnot MCP7940_ST_bm) temp))
    end.



Definition mcp7940_trimming (mode : MCP7940_Trim) (value : Z)
  : Bus MCP7940_Error :=
  let value := Z.land value 0x7F in
  let value :=
    match mode with
    | MCP7940_Trim_Add => u8 (Z.lor value 0x80)
    | MCP7940_Trim_Substract => value
    end in
  mcp7940_write MCP7940_OSCTRIM value ;;
  readback <- mcp7940_read MCP7940_OSCTRIM ;;
  if readback =? value then ret MCP7940_Error_None
  else ret MCP7940_Error_Fail.

(** The status flags, as the raw value of the enumeration. *)
Definition mcp7940_status : Bus Z :=
  value <- mcp7940_read MCP7940_RTCWKDAY ;;
  ret (Z.land value
         (Z.lor (Z.lor MCP7940_OSCRUN_bm MCP7940_PWRFAIL_bm) MCP7940_VBATEN_bm)).

Definition mcp7940_mfp_output (output : MCP7940_Mode) : Bus unit :=
  temp <- mcp7940_read MCP7940_CONTROL ;;
  if negb (MCP7940_Mode_value output =? 0)
  then mcp7940_write MCP7940_CONTROL (u8 (Z.lor MCP7940_OUT_bm temp))
  else mcp7940_write MCP7940_CONTROL
         (u8 (Z.land (Z.lnot MCP7940_OUT_bm) temp)).

(** *** Register block selection and reading *)

Definition mcp7940_hour (data : MCP7940_Register) : Bus Z :=
  let temp :=
    match data with
    | MCP7940_Register_Power_Down_Time => MCP7940_PWRDNHOUR
    | MCP7940_Register_Power_Up_Time => MCP7940_PWRUPHOUR
    | MCP7940_Register_Current_Time => MCP7940_RTCHOUR
    end in
  mcp7940_data temp MCP7940_HRTEN_bm.

Definition mcp7940_minute (data : MCP7940_Register) : Bus Z :=
  let temp :=
    match data with
    | MCP7940_Register_Power_Down_Time => MCP7940_PWRDNMIN
    | MCP7940_Register_Power_Up_Time => MCP7940_PWRUPMIN
    | MCP7940_Register_Current_Time => MCP7940_RTCMIN
    end in
  mcp7940_data temp MCP7940_MINTEN_bm.

Definition mcp7940_second : Bus Z :=
  mcp7940_data MCP7940_RTCSEC MCP7940_SECTEN_bm.

Definition mcp7940_weekday (data : MCP7940_Register) : Bus Z :=
  match data with
  | MCP7940_Register_Power_Down_Time =>
      value <- mcp7940_read MCP7940_PWRDNMTH ;;
      ret (Z.shiftr (Z.land 0xE0 value) MCP7940_PWRWEEKDAY_bp)
  | MCP7940_Register_Power_Up_Time =>
      value <- mcp7940_read MCP7940_PWRUPMTH ;;
      ret (Z.shiftr (Z.land 0xE0 value) MCP7940_PWRWEEKDAY_bp)
  | MCP7940_Register_Current_Time =>
      value <- mcp7940_read MCP7940_RTCWKDAY ;;
      ret (Z.land 0x07 value)
  end.

Definition mcp7940_day (data : MCP7940_Register) : Bus Z :=
  let temp :=
    match data with
    | MCP7940_Register_Power_Down_Time => MCP7940_PWRDNDATE
    | MCP7940_Register_Power_Up_Time => MCP7940_PWRUPDATE
    | MCP7940_Register_Current_Time => MCP7940_RTCDATE
    end in
  mcp7940_data temp MCP7940_DATETEN_bm.

Definition mcp7940_month (data : MCP7940_Register) : Bus Z :=
  let temp :=
    match data with
    | MCP7940_Register_Power_Down_Time => MCP7940_PWRDNMTH
    | MCP7940_Register_Power_Up_Time => MCP7940_PWRUPMTH
    | MCP7940_Register_Current_Time => MCP7940_RTCMTH
    end in
  mcp7940_data temp MCP7940_MTHTEN_bm.

Definition mcp7940_year : Bus Z :=
  mcp7940_data MCP7940_RTCYEAR MCP7940_YRTEN_bm.

(** [mcp7940_time] fills the structure its first argument points to; the
    structure is passed in and the filled one returned. *)
Definition mcp7940_time (time : FORMAT_Time) (reg : MCP7940_Register)
  : Bus FORMAT_Time :=
  h <- mcp7940_hour reg ;;
  let time := set_hour h time in
  m <- mcp7940_minute reg ;;
  let time := set_minute m time in
  match reg with
  | MCP7940_Register_Current_Time =>
      s <- mcp7940_second ;;
      ret (set_second s time)
  | _ => ret (set_second 0 time)
  end.

Definition mcp7940_date (date : FORMAT_Date) (reg : MCP7940_Register)
  : Bus FORMAT_Date :=
  d <- mcp7940_day reg ;;
  let date := set_day d date in
  m <- mcp7940_month reg ;;
  let date := set_month m date in
  match reg with
  | MCP7940_Register_Current_Time =>
      y <- mcp7940_year ;;
      ret (set_year y date)
  | _ => ret (set_year 0 date)
  end.

Definition mcp7940_datetime (datetime : FORMAT_DateTime)
  (reg : MCP7940_Register) : Bus FORMAT_DateTime :=
  t <- mcp7940_time (time datetime) reg ;;
  d <- mcp7940_date (date datetime) reg ;;
  ret {| time := t; date := d |}.

(** The raw value of the [MCP7940_LeapYear] enumeration the function
    returns.  The register address passed to the read is the macro
    [MCP7940_LPYR_bm]. *)
Definition mcp7940_leapyear : Bus Z :=
  value <- mcp7940_read MCP7940_LPYR_bm ;;
  ret (Z.shiftr (Z.land 0x07 value) MCP7940_LPYR_bp).

(** *** Writing *)

Definition mcp7940_setweekday (weekday : Z) : Bus MCP7940_Error :=
  if 7 <=? weekday then ret MCP7940_Error_Fail
  else
    temp <- mcp7940_read MCP7940_RTCWKDAY ;;
    mcp7940_write MCP7940_RTCWKDAY
      (u8 (Z.lor (Z.land 0xF8 temp) (Z.land 0x07 (weekday + 1)))) ;;
    ret MCP7940_Error_None.

Definition mcp7940_setdata (address1 value1 address2 value2 address3 value3 : Z)
  : Bus unit :=
  mcp7940_write address1 (mcp7940_tobcd value1) ;;
  mcp7940_write address2 (mcp7940_tobcd value2) ;;
  mcp7940_write address3 (mcp7940_tobcd value3).

Definition mcp7940_settime (time : FORMAT_Time) : Bus MCP7940_Error :=
  match validate_time time with
  | RETURN_Valid =>
      mcp7940_setdata
        MCP7940_RTCHOUR (hour time)
        MCP7940_RTCMIN (minute time)
        MCP7940_RTCSEC (second time) ;;
      mcp7940_oscillator MCP7940_Mode_Enable ;;
      ret MCP7940_Error_None
  | _ => ret MCP7940_Error_Fail
  end.

Definition mcp7940_setdate (date : FORMAT_Date) : Bus MCP7940_Error :=
  match validate_date date with
  | RETURN_Valid =>
      mcp7940_setdata
        MCP7940_RTCDATE (day date)
        MCP7940_RTCMTH (month date)
        MCP7940_RTCYEAR (year date) ;;
      ret MCP7940_Error_None
  | _ => ret MCP7940_Error_Fail
  end.

(** The two results are OR-ed as integers; the raw value is returned. *)
Definition mcp7940_setdatetime (datetime : FORMAT_DateTime) : Bus Z :=
  let error := MCP7940_Error_value MCP7940_Error_None in
  e1 <- mcp7940_settime (time datetime) ;;
  let error := Z.lor error (MCP7940_Error_value e1) in
  e2 <- mcp7940_setdate (date datetime) ;;
  let error := Z.lor error (MCP7940_Error_value e2) in
  ret error.

End Driver.

(** ** Two devices to run the driver against *)

(** A device that keeps one byte per register address and an address
    pointer: after the bus address for writing, the first byte sent sets the
    pointer and every further byte is stored at the pointer, which then
    advances; a receive returns the byte at the pointer. *)
Record RegisterFile := {
  rf_regs : Z -> Z;
  rf_pointer : Z;
  rf_expect_pointer : bool
}.

Definition rf_store (address data : Z) (regs : Z -> Z) : Z -> Z :=
  fun a => if a =? address then data else regs a.

Definition rf_react (e : BusEvent) (s : RegisterFile) : RegisterFile :=
  match e with
  | Ev_address _ TWI_WRITE =>
      {| rf_regs := rf_regs s; rf_pointer := rf_pointer s;
         rf_expect_pointer := true |}
  | Ev_address _ TWI_READ =>
      {| rf_regs := rf_regs s; rf_pointer := rf_pointer s;
         rf_expect_pointer := false |}
  | Ev_set data =>
      if rf_expect_pointer s
      then {| rf_regs := rf_regs s; rf_pointer := data;
              rf_expect_pointer := false |}
      else {| rf_regs := rf_store (rf_pointer s) data (rf_regs s);
              rf_pointer := rf_pointer s + 1;
              rf_expect_pointer := false |}
  | Ev_get _ _ =>
      {| rf_regs := rf_regs s; rf_pointer := rf_pointer s + 1;
         rf_expect_pointer := false |}
  | Ev_start | Ev_stop | Ev_wait _ => s
  end.

Definition register_file : Device :=
  {| dev_state := RegisterFile;
     dev_react := rf_react;
     dev_drive := fun s => rf_regs s (rf_pointer s) |}.

(** A bus with nothing behind it: whatever is sent is lost and every receive
    returns zero. *)
Definition silent_device : Device :=
  {| dev_state := unit;
     dev_react := fun _ s => s;
     dev_drive := fun _ => 0 |}.

Definition register_file_platform : Platform :=
  {| bus_device := register_file;
     config := default_config;
     validate_time := range_validate_time;
     validate_date := range_validate_date |}.

Definition silent_platform : Platform :=
  {| bus_device := silent_device;
     config := default_config;
     validate_time := range_validate_time;
     validate_date := range_validate_date |}.

(** A register file holding [regs], with an empty bus log. *)
Definition rf_world (regs : Z -> Z) : World register_file :=
  Build_World register_file []
    {| rf_regs := regs; rf_pointer := 0; rf_expect_pointer := false |}.

Definition silent_world : World silent_device :=
  Build_World silent_device [] tt.

(** The registers of a register-file world. *)
Definition registers (w : World register_file) : Z -> Z := rf_regs (device w).

(** ** Further notions used to state properties of the driver *)

(** The storing device under an arbitrary build configuration. *)
Definition storing_platform (cfg : Config) : Platform :=
  {| bus_device := register_file;
     config := cfg;
     validate_time := range_validate_time;
     validate_date := range_validate_date |}.

(** The registers of a storing device once the transactions [ts] have
    reached it: a write stores its byte, a read changes nothing. *)
Definition stored (ts : list Transaction) (regs : Z -> Z) : Z -> Z :=
  fold_left
    (fun r t =>
       match t with
       | Tx_write address data => rf_store address data r
       | Tx_read _ _ => r
       end) ts regs.

Definition is_read (t : Transaction) : bool :=
  match t with Tx_read _ _ => true | Tx_write _ _ => false end.

(** A byte in binary-coded decimal: both nibbles are decimal digits. *)
Definition is_bcd (b : Z) : Prop :=
  0 <= b <= 255 /\ Z.shiftr b 4 <= 9 /\ Z.land b 0x0F <= 9.

(** A register file all of whose registers hold bytes. *)
Definition byte_registers (regs : Z -> Z) : Prop :=
  forall a, is_byte (regs a).

Definition mode_enabled (mode : MCP7940_Mode) : bool :=
  match mode with
  | MCP7940_Mode_Enable => true
  | MCP7940_Mode_Disable => false
  end.

(** The byte the driver writes back when it sets ([enable]) or clears bit
    [n] of a register byte [temp] it has read: [mask | temp], respectively
    [~mask & temp], narrowed to a byte. *)
Definition update_flag (enable : bool) (n temp : Z) : Z :=
  if enable then u8 (Z.lor (2 ^ n) temp)
  else u8 (Z.land (Z.lnot (2 ^ n)) temp).

(** The register and the bit [mcp7940_oscillator] works on in a build. *)
Definition oscillator_register (cfg : Config) : Z :=
  if MCP7940_USE_EXTOSC cfg then MCP7940_CONTROL else MCP7940_RTCSEC.

Definition oscillator_bit (cfg : Config) : Z :=
  if MCP7940_USE_EXTOSC cfg then 3 else 7.

(** ** Codec lemmas *)

Lemma u8_small (x : Z) : 0 <= x <= 255 -> u8 x = x.
Proof. intros H. unfold u8. apply Z.mod_small. lia. Qed.

Lemma u8_byte (x : Z) : is_byte (u8 x).
Proof.
  unfold is_byte, u8.
  pose proof (Z.mod_pos_bound x 256 ltac:(lia)). lia.
Qed.

(** A digit below sixteen does not overlap a value shifted into the upper
    nibble, so OR-ing the two is adding them. *)
Lemma nibbles_disjoint (t o : Z) :
  0 <= o < 16 -> Z.land (Z.shiftl t 4) o = 0.
Proof.
  intros Ho. apply Z.bits_inj'. intros n Hn.
  rewrite Z.land_spec, Z.bits_0.
  destruct (Z.ltb_spec n 4) as [Hlt | Hge].
  - rewrite Z.shiftl_spec_low by lia. reflexivity.
  - assert (Z.testbit o n = false) as ->.
    { destruct (Z.eq_dec o 0) as [-> | Hnz]; [apply Z.bits_0 |].
      apply Z.bits_above_log2; [lia |].
      apply Z.log2_lt_pow2; [lia |].
      apply Z.lt_le_trans with (2 ^ 4); [simpl; lia |].
      apply Z.pow_le_mono_r; lia. }
    apply andb_false_r.
Qed.

Lemma lor_nibbles (t o : Z) :
  0 <= o < 16 -> Z.lor (Z.shiftl t 4) o = 16 * t + o.
Proof.
  intros Ho.
  rewrite <- Z.lxor_lor by (apply nibbles_disjoint; exact Ho).
  rewrite <- Z.add_nocarry_lxor by (apply nibbles_disjoint; exact Ho).
  rewrite Z.shiftl_mul_pow2 by lia. change (2 ^ 4) with 16. lia.
Qed.

(** The tens digit of a magnitude below [10 * (k + 1)] is at most [k]. *)
Lemma tens_digit_bound (m k : Z) :
  0 <= m < 10 * (k + 1) -> 0 <= m / 10 <= k.
Proof.
  intros Hm. split; [apply Z.div_pos; lia |].
  assert (m / 10 < k + 1) by (apply Z.div_lt_upper_bound; lia). lia.
Qed.

(** The encoder, as arithmetic, on magnitudes whose tens digit fits a nibble. *)
Lemma tobcd_arith (m : Z) :
  0 <= m <= 159 -> mcp7940_tobcd m = 16 * (m / 10) + m mod 10.
Proof.
  intros Hm. unfold mcp7940_tobcd.
  pose proof (Z.mod_pos_bound m 10 ltac:(lia)) as Hmod.
  assert (0 <= m / 10 <= 15) as Hdiv by (apply tens_digit_bound; lia).
  rewrite lor_nibbles by lia.
  apply u8_small. lia.
Qed.

Lemma tobcd_high_nibble (m : Z) :
  0 <= m <= 159 -> Z.shiftr (mcp7940_tobcd m) 4 = m / 10.
Proof.
  intros Hm. rewrite tobcd_arith by exact Hm.
  pose proof (Z.mod_pos_bound m 10 ltac:(lia)) as Hmod.
  rewrite Z.shiftr_div_pow2 by lia. change (2 ^ 4) with 16.
  symmetry. apply Z.div_unique with (r := m mod 10); lia.
Qed.

Lemma tobcd_low_nibble (m : Z) :
  0 <= m <= 159 -> Z.land 0x0F (mcp7940_tobcd m) = m mod 10.
Proof.
  intros Hm. rewrite tobcd_arith by exact Hm.
  pose proof (Z.mod_pos_bound m 10 ltac:(lia)) as Hmod.
  rewrite Z.land_comm. change 0x0F with (Z.ones 4).
  rewrite Z.land_ones by lia. change (2 ^ 4) with 16.
  symmetry. apply Z.mod_unique with (q := m / 10); lia.
Qed.

(** Round trip for any mask that covers the tens digit. *)
Lemma tobinary_tobcd_covers (m mask : Z) :
  0 <= m <= 159 -> covers_tens mask m ->
  mcp7940_tobinary (mcp7940_tobcd m) mask = m.
Proof.
  intros Hm Hcov. unfold mcp7940_tobinary, covers_tens in *.
  rewrite Z.shiftr_land, tobcd_high_nibble, tobcd_low_nibble by exact Hm.
  assert (Z.land (Z.shiftr mask 4) (m / 10) = m / 10) as ->.
  { apply (f_equal (fun x => Z.shiftr x 4)) in Hcov.
    rewrite Z.shiftr_land, Z.shiftr_shiftl_l in Hcov by lia.
    change (4 - 4) with 0 in Hcov. rewrite Z.shiftl_0_r in Hcov.
    exact Hcov. }
  rewrite u8_small; pose proof (Z.div_mod m 10 ltac:(lia));
    pose proof (Z.mod_pos_bound m 10 ltac:(lia)); lia.
Qed.

(** Each field's mask covers every tens digit a legal magnitude produces. *)
Lemma tens_mask_covers (f : BcdField) (m : Z) :
  legal_magnitude f m -> covers_tens (tens_mask f) m.
Proof.
  intros Hm. unfold covers_tens.
  assert (exists k, 0 <= k <= 9 /\ 0 <= m / 10 <= k /\
          forall t, 0 <= t <= k ->
            Z.land (tens_mask f) (Z.shiftl t 4) = Z.shiftl t 4)
    as (k & Hk & Ht & Hall).
  { destruct f; simpl in Hm;
      [ exists 5 | exists 5 | exists 2 | exists 3 | exists 1 | exists 9 ];
      (split; [lia |]); (split; [apply tens_digit_bound; lia |]);
      intros t Hr;
      assert (t = 0 \/ t = 1 \/ t = 2 \/ t = 3 \/ t = 4 \/ t = 5 \/
              t = 6 \/ t = 7 \/ t = 8 \/ t = 9) as Hcases by lia;
      repeat (destruct Hcases as [-> | Hcases]); try subst t;
      try reflexivity; lia. }
  apply Hall. exact Ht.
Qed.

(** ** Round trip of the codec *)

(** C1: for every magnitude [m] in the legal range of a BCD field (seconds and
    minutes 0-59, hours 0-23, day 1-31, month 1-12, year 0-99), decoding the
    encoded byte with that field's tens mask gives [m] back. *)
Theorem tobinary_tobcd_roundtrip (f : BcdField) (m : Z) :
  legal_magnitude f m ->
  mcp7940_tobinary (mcp7940_tobcd m) (tens_mask f) = m.
Proof.
  intros Hm. apply tobinary_tobcd_covers.
  - destruct f; simpl in Hm; lia.
  - apply tens_mask_covers. exact Hm.
Qed.

Lemma tobinary_tobcd_roundtrip_witness :
  legal_magnitude Field_Hour 23 /\
  mcp7940_tobinary (mcp7940_tobcd 23) (tens_mask Field_Hour) = 23.
Proof.
  split.
  - simpl. lia.
  - apply (tobinary_tobcd_roundtrip Field_Hour 23). simpl. lia.
Defined.

(** ** Weekday labels *)

Lemma weekday_index_mod (day : Z) : weekday_index day = (day - 1) mod 8.
Proof.
  unfold weekday_index. rewrite Z.land_comm.
  change 0x07 with (Z.ones 3). rewrite Z.land_ones by lia. reflexivity.
Qed.

Lemma weekday_index_range (day : Z) : 0 <= weekday_index day <= 7.
Proof.
  rewrite weekday_index_mod.
  pose proof (Z.mod_pos_bound (day - 1) 8 ltac:(lia)). lia.
Qed.

(** The label found at each index of the table. *)
Lemma weekday_string_at (day i : Z) :
  weekday_index day = i ->
  mcp7940_weekday_string day = nth_error weeksdays (Z.to_nat i).
Proof. intros <-. reflexivity. Qed.

(** C10: for every [unsigned char] input the index [0x07 & (day - 1)] lies in
    [0,7], inside the eight-row table, so the lookup always yields one of the
    eight three-character labels and never leaves the table. *)
Theorem weekday_string_in_bounds (day : Z) :
  0 <= day <= 255 ->
  0 <= weekday_index day <= 7 /\
  (Z.to_nat (weekday_index day) < List.length weeksdays)%nat /\
  exists label,
    mcp7940_weekday_string day = Some label /\
    In label weeksdays /\ String.length label = 3%nat.
Proof.
  intros _. pose proof (weekday_index_range day) as Hr.
  split; [exact Hr |]. split; [simpl; lia |].
  unfold mcp7940_weekday_string.
  assert (weekday_index day = 0 \/ weekday_index day = 1 \/
          weekday_index day = 2 \/ weekday_index day = 3 \/
          weekday_index day = 4 \/ weekday_index day = 5 \/
          weekday_index day = 6 \/ weekday_index day = 7) as Hc by lia.
  repeat (destruct Hc as [-> | Hc]); try rewrite Hc;
    (eexists; split; [reflexivity |]; split; [simpl; tauto | reflexivity]).
Qed.

Lemma weekday_string_in_bounds_witness :
  0 <= 0 <= 255 /\
  0 <= weekday_index 0 <= 7 /\
  (Z.to_nat (weekday_index 0) < List.length weeksdays)%nat /\
  exists label,
    mcp7940_weekday_string 0 = Some label /\
    In label weeksdays /\ String.length label = 3%nat.
Proof.
  split; [lia |]. apply (weekday_string_in_bounds 0). lia.
Defined.

(** C6, as the claim states it, fails: the device value 9 lies outside 1-7
    and is given the label of Monday, not the fallback. *)
Lemma weekday_string_fallback_counterexample :
  ~ (forall day, 0 <= day <= 255 -> ~ (1 <= day <= 7) ->
       mcp7940_weekday_string day = Some "???"%string).
Proof.
  intros H. specialize (H 9 ltac:(lia) ltac:(lia)).
  vm_compute in H. discriminate H.
Qed.

(** C6, amended: device values 1 to 7 map to MON, TUE, WED, THU, FRI, SAT,
    SUN; every byte value is first wrapped into the table by its low three
    bits, so a multiple of eight (0, 8, 16, ...) gives the fallback label and
    any other value gives the label of its remainder modulo eight; the lookup
    never fails. *)
Theorem weekday_string_wraps (day : Z) :
  0 <= day <= 255 ->
  map mcp7940_weekday_string [1; 2; 3; 4; 5; 6; 7] =
    map Some ["MON"; "TUE"; "WED"; "THU"; "FRI"; "SAT"; "SUN"]%string /\
  (day mod 8 = 0 -> mcp7940_weekday_string day = Some "???"%string) /\
  (day mod 8 <> 0 ->
     mcp7940_weekday_string day = mcp7940_weekday_string (day mod 8) /\
     mcp7940_weekday_string day <> Some "???"%string).
Proof.
  intros _. split; [reflexivity |].
  pose proof (Z.mod_pos_bound day 8 ltac:(lia)) as Hb.
  assert (weekday_index day = (day mod 8 - 1) mod 8) as Hidx.
  { rewrite weekday_index_mod. symmetry. apply Zminus_mod_idemp_l. }
  split.
  - intros Hz. rewrite Hz in Hidx.
    rewrite (weekday_string_at day _ Hidx). reflexivity.
  - intros Hnz.
    assert (weekday_index day = day mod 8 - 1) as Hidx'.
    { rewrite Hidx. apply Z.mod_small. lia. }
    split.
    + unfold mcp7940_weekday_string. f_equal. f_equal.
      rewrite Hidx', weekday_index_mod. symmetry. apply Z.mod_small. lia.
    + rewrite (weekday_string_at day _ Hidx').
      assert (day mod 8 = 1 \/ day mod 8 = 2 \/ day mod 8 = 3 \/
              day mod 8 = 4 \/ day mod 8 = 5 \/ day mod 8 = 6 \/
              day mod 8 = 7) as Hc by lia.
      repeat (destruct Hc as [-> | Hc]); try rewrite Hc; discriminate.
Qed.

Lemma weekday_string_wraps_witness :
  0 <= 9 <= 255 /\
  mcp7940_weekday_string 9 = mcp7940_weekday_string 1 /\
  mcp7940_weekday_string 8 = Some "???"%string.
Proof.
  split; [lia |]. split.
  - destruct (weekday_string_wraps 9 ltac:(lia)) as (_ & _ & Hwrap).
    apply Hwrap. discriminate.
  - destruct (weekday_string_wraps 8 ltac:(lia)) as (_ & Hfall & _).
    apply Hfall. reflexivity.
Defined.

(** ** Bytes and bit masks *)

Lemma u8_land_ones (x : Z) : u8 x = Z.land x 0xFF.
Proof.
  unfold u8. change 0xFF with (Z.ones 8).
  rewrite Z.land_ones by lia. reflexivity.
Qed.

Lemma u8_idem (x : Z) : u8 (u8 x) = u8 x.
Proof. apply u8_small. apply u8_byte. Qed.

Lemma u8_lor (a b : Z) : u8 (Z.lor a b) = Z.lor (u8 a) (u8 b).
Proof. rewrite !u8_land_ones. apply Z.land_lor_distr_l. Qed.

Lemma u8_land (a b : Z) : u8 (Z.land a b) = Z.land (u8 a) (u8 b).
Proof.
  rewrite !u8_land_ones.
  rewrite (Z.land_comm b 0xFF), Z.land_assoc, <- (Z.land_assoc a 0xFF 0xFF).
  change (Z.land 0xFF 0xFF) with 0xFF.
  rewrite <- !Z.land_assoc. f_equal. apply Z.land_comm.
Qed.

(** Masking with [2^n - 1] leaves a value below [2^n] as it is. *)
Lemma land_low_mask (x n : Z) :
  0 <= n -> 0 <= x < 2 ^ n -> Z.land x (Z.ones n) = x.
Proof.
  intros Hn Hx. rewrite Z.land_ones by exact Hn. apply Z.mod_small. exact Hx.
Qed.

(** Two masks without a common bit annihilate each other. *)
Lemma land_disjoint_masks (a b x : Z) :
  Z.land a b = 0 -> Z.land (Z.land a x) b = 0.
Proof.
  intros Hab.
  rewrite <- Z.land_assoc, (Z.land_comm x b), Z.land_assoc, Hab.
  apply Z.land_0_l.
Qed.

Lemma land_mask_idem (a x : Z) : Z.land (Z.land a x) a = Z.land a x.
Proof.
  rewrite <- Z.land_assoc, (Z.land_comm x a), Z.land_assoc, Z.land_diag.
  reflexivity.
Qed.

(** ** Transactions on the bus *)

Section BusProperties.

Context {P : Platform}.

Lemma frames_app (ts1 ts2 : list Transaction) :
  frames (ts1 ++ ts2) = frames ts1 ++ frames ts2.
Proof. unfold frames. apply flat_map_app. Qed.

Lemma after_nil (w : World bus_device) : after w [] = w.
Proof. destruct w as [l d]. unfold after. simpl. rewrite app_nil_r. reflexivity. Qed.

Lemma after_after (w : World bus_device) (ts1 ts2 : list Transaction) :
  after (after w ts1) ts2 = after w (ts1 ++ ts2).
Proof.
  unfold after. simpl. rewrite frames_app, app_assoc.
  unfold replay. rewrite fold_left_app. reflexivity.
Qed.

Lemma bus_log_after (w : World bus_device) (ts : list Transaction) :
  bus_log (after w ts) = bus_log w ++ frames ts.
Proof. reflexivity. Qed.

(** A register write is one write transaction. *)
Lemma run_write (address data : Z) (w : World bus_device) :
  mcp7940_write address data w = (tt, after w [Tx_write address data]).
Proof.
  unfold mcp7940_write, bind, twi_start, twi_address, twi_set, twi_stop,
    systick_timer_wait_ms, issue, after.
  cbn [bus_log device frames flat_map frame replay fold_left app].
  repeat rewrite <- app_assoc. reflexivity.
Qed.

(** A register read is one read transaction carrying the byte the device
    returned. *)
Lemma run_read (address : Z) (w : World bus_device) :
  mcp7940_read address w =
  (read_value bus_device address (device w),
   after w [Tx_read address (read_value bus_device address (device w))]).
Proof.
  unfold mcp7940_read, bind, ret, twi_start, twi_address, twi_set, twi_get,
    twi_stop, systick_timer_wait_ms, issue, after, read_value.
  cbn [bus_log device frames flat_map frame replay fold_left app].
  repeat rewrite <- app_assoc. reflexivity.
Qed.

Lemma read_value_byte (address : Z) (d : dev_state bus_device) :
  is_byte (read_value bus_device address d).
Proof. apply u8_byte. Qed.

Lemma run_data (address mask : Z) (w : World bus_device) :
  mcp7940_data address mask w =
  (mcp7940_tobinary (read_value bus_device address (device w)) mask,
   after w [Tx_read address (read_value bus_device address (device w))]).
Proof. unfold mcp7940_data, bind, ret. rewrite run_read. reflexivity. Qed.

Lemma run_setdata (a1 v1 a2 v2 a3 v3 : Z) (w : World bus_device) :
  mcp7940_setdata a1 v1 a2 v2 a3 v3 w =
  (tt, after w [Tx_write a1 (mcp7940_tobcd v1);
                Tx_write a2 (mcp7940_tobcd v2);
                Tx_write a3 (mcp7940_tobcd v3)]).
Proof.
  unfold mcp7940_setdata, bind.
  rewrite !run_write, !after_after. reflexivity.
Qed.

(** *** Rejected time and date *)

(** C2: for every time the time validator rejects and every date the date
    validator rejects, [mcp7940_settime] (respectively [mcp7940_setdate])
    returns [MCP7940_Error_Fail] and the world is exactly what it was: no
    primitive was issued and the device saw nothing. *)
Theorem rejected_input_no_transaction
  (t : FORMAT_Time) (d : FORMAT_Date) (w : World bus_device) :
  (validate_time t <> RETURN_Valid ->
     mcp7940_settime t w = (MCP7940_Error_Fail, w) /\
     bus_log (snd (mcp7940_settime t w)) = bus_log w) /\
  (validate_date d <> RETURN_Valid ->
     mcp7940_setdate d w = (MCP7940_Error_Fail, w) /\
     bus_log (snd (mcp7940_setdate d w)) = bus_log w).
Proof.
  split; intros Hrej.
  - unfold mcp7940_settime.
    destruct (validate_time t); [congruence |]. split; reflexivity.
  - unfold mcp7940_setdate.
    destruct (validate_date d); [congruence |]. split; reflexivity.
Qed.

(** *** Oscillator trim *)

Lemma trim_magnitude (v : Z) : 0 <= v <= 127 -> Z.land v 0x7F = v.
Proof.
  intros Hv. change 0x7F with (Z.ones 7).
  apply land_low_mask; [lia |]. change (2 ^ 7) with 128. lia.
Qed.

Lemma trim_add_byte (v : Z) :
  0 <= v <= 127 -> u8 (Z.lor (Z.land v 0x7F) 0x80) = Z.lor 0x80 v.
Proof.
  intros Hv. rewrite trim_magnitude by exact Hv.
  rewrite u8_lor, (u8_small v) by lia.
  change (u8 0x80) with 0x80. apply Z.lor_comm.
Qed.

Lemma trim_add_sign (v : Z) :
  0 <= v <= 127 ->
  Z.testbit (Z.lor 0x80 v) 7 = true /\ Z.land (Z.lor 0x80 v) 0x7F = v.
Proof.
  intros Hv. split.
  - rewrite Z.lor_spec. reflexivity.
  - rewrite Z.land_lor_distr_l, (trim_magnitude v) by exact Hv. reflexivity.
Qed.

Lemma trim_subtract_sign (v : Z) : 0 <= v <= 127 -> Z.testbit v 7 = false.
Proof.
  intros Hv. rewrite <- (trim_magnitude v Hv), Z.land_spec.
  change (Z.testbit 0x7F 7) with false. apply andb_false_r.
Qed.

(** The byte [mcp7940_trimming] writes, whatever the magnitude. *)
Lemma run_trimming (mode : MCP7940_Trim) (v : Z) (w : World bus_device) :
  let written :=
    match mode with
    | MCP7940_Trim_Add => u8 (Z.lor (Z.land v 0x7F) 0x80)
    | MCP7940_Trim_Substract => Z.land v 0x7F
    end in
  let readback :=
    read_value bus_device MCP7940_OSCTRIM
      (device (after w [Tx_write MCP7940_OSCTRIM written])) in
  mcp7940_trimming mode v w =
  (if readback =? written then MCP7940_Error_None else MCP7940_Error_Fail,
   after w [Tx_write MCP7940_OSCTRIM written;
            Tx_read MCP7940_OSCTRIM readback]).
Proof.
  intros written readback. unfold mcp7940_trimming, bind.
  fold written. rewrite run_write, run_read, after_after.
  fold readback. cbn [app].
  destruct (readback =? written); reflexivity.
Qed.

(** C3: for a magnitude [v <= 127], direction Add writes [0x80 | v] and
    direction Subtract writes [v], whose bit 7 is clear, to the trim
    register; the register is then read back once; the result is
    [MCP7940_Error_None] when the byte read equals the byte written and
    [MCP7940_Error_Fail] otherwise, and in both cases the bus carried exactly
    one write followed by one read. *)
Theorem trimming_write_then_verify
  (mode : MCP7940_Trim) (v : Z) (w : World bus_device) :
  0 <= v <= 127 ->
  let written :=
    match mode with
    | MCP7940_Trim_Add => Z.lor 0x80 v
    | MCP7940_Trim_Substract => v
    end in
  let readback :=
    read_value bus_device MCP7940_OSCTRIM
      (device (after w [Tx_write MCP7940_OSCTRIM written])) in
  Z.testbit written 7 =
    match mode with MCP7940_Trim_Add => true | _ => false end /\
  Z.land written 0x7F = v /\
  snd (mcp7940_trimming mode v w) =
    after w [Tx_write MCP7940_OSCTRIM written;
             Tx_read MCP7940_OSCTRIM readback] /\
  (readback = written ->
     fst (mcp7940_trimming mode v w) = MCP7940_Error_None) /\
  (readback <> written ->
     fst (mcp7940_trimming mode v w) = MCP7940_Error_Fail).
Proof.
  intros Hv written readback.
  pose proof (run_trimming mode v w) as Hrun. cbv zeta in Hrun.
  assert (match mode with
          | MCP7940_Trim_Add => u8 (Z.lor (Z.land v 0x7F) 0x80)
          | MCP7940_Trim_Substract => Z.land v 0x7F
          end = written) as Hbyte.
  { subst written. destruct mode;
      [apply trim_magnitude | apply trim_add_byte]; exact Hv. }
  rewrite Hbyte in Hrun. fold readback in Hrun. rewrite Hrun.
  cbn [fst snd].
  split; [| split; [| split; [reflexivity | split]]].
  - subst written. destruct mode.
    + apply trim_subtract_sign. exact Hv.
    + apply trim_add_sign. exact Hv.
  - subst written. destruct mode.
    + apply trim_magnitude. exact Hv.
    + apply trim_add_sign. exact Hv.
  - intros ->. rewrite Z.eqb_refl. reflexivity.
  - intros Hne. apply Z.eqb_neq in Hne. rewrite Hne. reflexivity.
Qed.

(** C7, amended: with magnitude 0 the seven magnitude bits written are zero
    for both directions, and bit 7 still follows the direction: Subtract
    writes [0x00] and Add writes [0x80]. *)
Theorem trimming_zero_keeps_direction
  (mode : MCP7940_Trim) (w : World bus_device) :
  exists written readback,
    snd (mcp7940_trimming mode 0 w) =
      after w [Tx_write MCP7940_OSCTRIM written;
               Tx_read MCP7940_OSCTRIM readback] /\
    written =
      match mode with
      | MCP7940_Trim_Add => 0x80
      | MCP7940_Trim_Substract => 0x00
      end /\
    Z.land written 0x7F = 0.
Proof.
  pose proof (run_trimming mode 0 w) as Hrun. cbv zeta in Hrun.
  rewrite Hrun. cbn [snd].
  eexists. eexists. split; [reflexivity |].
  destruct mode; split; reflexivity.
Qed.

(** *** Weekday programming *)

Lemma weekday_field (wd : Z) :
  0 <= wd <= 6 ->
  Z.land 0x07 (wd + 1) = wd + 1 /\ Z.land (wd + 1) 0xF8 = 0.
Proof.
  intros Hwd.
  assert (wd = 0 \/ wd = 1 \/ wd = 2 \/ wd = 3 \/ wd = 4 \/ wd = 5 \/ wd = 6)
    as Hc by lia.
  repeat (destruct Hc as [-> | Hc]); try subst wd; split; reflexivity.
Qed.

Lemma weekday_merge (temp wd : Z) :
  is_byte temp -> 0 <= wd <= 6 ->
  let written := Z.lor (Z.land 0xF8 temp) (wd + 1) in
  u8 (Z.lor (Z.land 0xF8 temp) (Z.land 0x07 (wd + 1))) = written /\
  Z.land written 0x07 = wd + 1 /\
  Z.land written 0xF8 = Z.land temp 0xF8.
Proof.
  intros Ht Hwd written. subst written.
  destruct (weekday_field wd Hwd) as [Hlow Hhigh].
  rewrite Hlow. split; [| split].
  - rewrite u8_lor, u8_land, (u8_small temp) by exact Ht.
    rewrite (u8_small (wd + 1)) by lia. reflexivity.
  - rewrite Z.land_lor_distr_l.
    rewrite land_disjoint_masks by reflexivity.
    rewrite Z.lor_0_l, Z.land_comm. exact Hlow.
  - rewrite Z.land_lor_distr_l, land_mask_idem, Hhigh, Z.lor_0_r.
    apply Z.land_comm.
Qed.

(** C4: for a weekday index in [0,6] [mcp7940_setweekday] returns
    [MCP7940_Error_None] after reading the weekday register and writing back
    a byte whose low three bits are [w + 1] and whose upper five bits (among
    them battery enable, power fail and oscillator running) are those just
    read; for an index of 7 or more it returns [MCP7940_Error_Fail] and the
    world is untouched. *)
Theorem setweekday_programs_device_value (wd : Z) (w : World bus_device) :
  0 <= wd <= 255 ->
  (wd <= 6 ->
     let temp := read_value bus_device MCP7940_RTCWKDAY (device w) in
     let written := Z.lor (Z.land 0xF8 temp) (wd + 1) in
     mcp7940_setweekday wd w =
       (MCP7940_Error_None,
        after w [Tx_read MCP7940_RTCWKDAY temp;
                 Tx_write MCP7940_RTCWKDAY written]) /\
     Z.land written 0x07 = wd + 1 /\
     Z.land written 0xF8 = Z.land temp 0xF8) /\
  (7 <= wd -> mcp7940_setweekday wd w = (MCP7940_Error_Fail, w)).
Proof.
  intros Hbyte. split.
  - intros Hle temp written.
    destruct (weekday_merge temp wd (read_value_byte _ _) ltac:(lia))
      as (Hu8 & Hlow & Hhigh).
    split; [| split; assumption].
    unfold mcp7940_setweekday, bind, ret.
    destruct (Z.leb_spec 7 wd) as [Hge | _]; [lia |].
    rewrite run_read. fold temp. rewrite Hu8, run_write, after_after.
    reflexivity.
  - intros Hge. unfold mcp7940_setweekday, ret.
    destruct (Z.leb_spec 7 wd) as [_ | Hlt]; [reflexivity | lia].
Qed.

(** *** Fields absent from the power-fail blocks *)

(** C5: for either power-fail register block and any device, [mcp7940_time]
    leaves [second = 0] and [mcp7940_date] leaves [year = 0]; the only
    transactions issued are the two reads of the block's own hour and minute
    (day and month) registers, none of them at the seconds or year
    register. *)
Theorem power_fail_blocks_zero_absent_fields
  (reg : MCP7940_Register) (tm : FORMAT_Time) (dt : FORMAT_Date)
  (w : World bus_device) :
  reg <> MCP7940_Register_Current_Time ->
  (exists h m,
     let txs :=
       match reg with
       | MCP7940_Register_Power_Up_Time =>
           [Tx_read MCP7940_PWRUPHOUR h; Tx_read MCP7940_PWRUPMIN m]
       | _ => [Tx_read MCP7940_PWRDNHOUR h; Tx_read MCP7940_PWRDNMIN m]
       end in
     second (fst (mcp7940_time tm reg w)) = 0 /\
     snd (mcp7940_time tm reg w) = after w txs /\
     Forall (fun t => tx_address t <> MCP7940_RTCSEC) txs) /\
  (exists d m,
     let txs :=
       match reg with
       | MCP7940_Register_Power_Up_Time =>
           [Tx_read MCP7940_PWRUPDATE d; Tx_read MCP7940_PWRUPMTH m]
       | _ => [Tx_read MCP7940_PWRDNDATE d; Tx_read MCP7940_PWRDNMTH m]
       end in
     year (fst (mcp7940_date dt reg w)) = 0 /\
     snd (mcp7940_date dt reg w) = after w txs /\
     Forall (fun t => tx_address t <> MCP7940_RTCYEAR) txs).
Proof.
  intros Hreg. split.
  - unfold mcp7940_time, mcp7940_hour, mcp7940_minute, bind, ret.
    destruct reg; [congruence | |];
      rewrite !run_data, after_after; cbn [app fst snd];
      (eexists; eexists; cbv zeta;
       split; [reflexivity | split; [reflexivity |]];
       repeat constructor; discriminate).
  - unfold mcp7940_date, mcp7940_day, mcp7940_month, bind, ret.
    destruct reg; [congruence | |];
      rewrite !run_data, after_after; cbn [app fst snd];
      (eexists; eexists; cbv zeta;
       split; [reflexivity | split; [reflexivity |]];
       repeat constructor; discriminate).
Qed.

(** *** Date write and the leap-year bit *)

Lemma month_byte_bit5 (m : Z) :
  1 <= m <= 12 -> Z.testbit (mcp7940_tobcd m) MCP7940_LPYR_bp = false.
Proof.
  intros Hm.
  assert (m = 1 \/ m = 2 \/ m = 3 \/ m = 4 \/ m = 5 \/ m = 6 \/ m = 7 \/
          m = 8 \/ m = 9 \/ m = 10 \/ m = 11 \/ m = 12) as Hc by lia.
  repeat (destruct Hc as [-> | Hc]); try subst m; reflexivity.
Qed.

(** C8, amended: for every date the validator accepts, [mcp7940_setdate]
    issues exactly three writes and no read: the BCD encodings of day, month
    and year to the date, month and year registers.  The month register is
    overwritten as a whole, and for a month in 1-12 the byte written there
    has the leap-year bit (bit 5) clear, whatever the register held before;
    the driver neither reads nor carries over that bit. *)
Theorem setdate_overwrites_month_register
  (d : FORMAT_Date) (w : World bus_device) :
  validate_date d = RETURN_Valid ->
  1 <= month d <= 12 ->
  mcp7940_setdate d w =
    (MCP7940_Error_None,
     after w [Tx_write MCP7940_RTCDATE (mcp7940_tobcd (day d));
              Tx_write MCP7940_RTCMTH (mcp7940_tobcd (month d));
              Tx_write MCP7940_RTCYEAR (mcp7940_tobcd (year d))]) /\
  Z.testbit (mcp7940_tobcd (month d)) MCP7940_LPYR_bp = false.
Proof.
  intros Hvalid Hmonth. split.
  - unfold mcp7940_setdate, bind, ret. rewrite Hvalid, run_setdata.
    reflexivity.
  - apply month_byte_bit5. exact Hmonth.
Qed.

(** *** Leap-year query *)

Lemma leapyear_expression_zero (byte : Z) :
  Z.shiftr (Z.land 0x07 byte) MCP7940_LPYR_bp = 0.
Proof.
  rewrite Z.land_comm. change 0x07 with (Z.ones 3).
  rewrite Z.land_ones by lia.
  pose proof (Z.mod_pos_bound byte (2 ^ 3) ltac:(lia)) as Hb.
  change (2 ^ 3) with 8 in *.
  unfold MCP7940_LPYR_bp. rewrite Z.shiftr_div_pow2 by lia.
  change (2 ^ 5) with 32. apply Z.div_small. lia.
Qed.

(** C9: whatever the device holds, [mcp7940_leapyear] returns the value of
    [MCP7940_LeapYear_False].  Its single read goes to address
    [MCP7940_LPYR_bm] (0x20), which is not the month register, and the
    expression [(0x07 & byte) >> 5] is zero for every byte. *)
Theorem leapyear_always_false (w : World bus_device) :
  fst (mcp7940_leapyear w) = MCP7940_LeapYear_value MCP7940_LeapYear_False /\
  (exists byte,
     snd (mcp7940_leapyear w) = after w [Tx_read 0x20 byte]) /\
  MCP7940_LPYR_bm <> MCP7940_RTCMTH /\
  (forall byte, Z.shiftr (Z.land 0x07 byte) MCP7940_LPYR_bp = 0).
Proof.
  unfold mcp7940_leapyear, bind, ret. rewrite run_read. cbn [fst snd].
  split; [apply leapyear_expression_zero |].
  split; [eexists; reflexivity |].
  split; [discriminate | apply leapyear_expression_zero].
Qed.

End BusProperties.

(** ** The driver run against concrete devices *)

Lemma rejected_input_no_transaction_witness :
  let t := {| hour := 24; minute := 0; second := 0 |} in
  let d := {| day := 0; month := 13; year := 5 |} in
  let w := rf_world (fun _ => 0) in
  range_validate_time t <> RETURN_Valid /\
  range_validate_date d <> RETURN_Valid /\
  mcp7940_settime (P := register_file_platform) t w = (MCP7940_Error_Fail, w) /\
  mcp7940_setdate (P := register_file_platform) d w = (MCP7940_Error_Fail, w).
Proof.
  intros t d w.
  assert (range_validate_time t <> RETURN_Valid) as Ht by discriminate.
  assert (range_validate_date d <> RETURN_Valid) as Hd by discriminate.
  destruct (rejected_input_no_transaction (P := register_file_platform) t d w)
    as [Htime Hdate].
  split; [exact Ht |]. split; [exact Hd |]. split.
  - exact (proj1 (Htime Ht)).
  - exact (proj1 (Hdate Hd)).
Defined.

Lemma trimming_write_then_verify_witness :
  0 <= 5 <= 127 /\
  mcp7940_trimming (P := register_file_platform) MCP7940_Trim_Add 5
    (rf_world (fun _ => 0)) =
  (MCP7940_Error_None,
   after (rf_world (fun _ => 0))
     [Tx_write MCP7940_OSCTRIM 0x85; Tx_read MCP7940_OSCTRIM 0x85]).
Proof.
  split; [lia |].
  destruct (trimming_write_then_verify (P := register_file_platform)
              MCP7940_Trim_Add 5 (rf_world (fun _ => 0)) ltac:(lia))
    as (_ & _ & Hworld & Hmatch & _).
  apply injective_projections.
  - apply Hmatch. reflexivity.
  - exact Hworld.
Defined.

(** A device that does not hold the trim byte makes the verification fail;
    the bus then carries the one write and the one read and nothing more. *)
Example trimming_mismatch_fails_once :
  let (result, w) :=
    mcp7940_trimming (P := silent_platform) MCP7940_Trim_Add 5 silent_world in
  result = MCP7940_Error_Fail /\
  bus_log w =
    frames [Tx_write MCP7940_OSCTRIM 0x85; Tx_read MCP7940_OSCTRIM 0x00].
Proof. vm_compute. split; reflexivity. Qed.

(** C7, as the claim states it, fails: with direction Add and magnitude 0 the
    byte written to the trim register is [0x80], not [0x00]. *)
Lemma trimming_zero_counterexample :
  ~ (forall mode : MCP7940_Trim,
       exists readback,
         bus_log (snd (mcp7940_trimming (P := register_file_platform) mode 0
                         (rf_world (fun _ => 0)))) =
         frames [Tx_write MCP7940_OSCTRIM 0x00;
                 Tx_read MCP7940_OSCTRIM readback]).
Proof.
  intros H. destruct (H MCP7940_Trim_Add) as [readback Hlog].
  vm_compute in Hlog. discriminate Hlog.
Qed.

Lemma setweekday_programs_device_value_witness :
  0 <= 6 <= 255 /\
  mcp7940_setweekday (P := register_file_platform) 6
    (rf_world (fun _ => 0x38)) =
  (MCP7940_Error_None,
   after (rf_world (fun _ => 0x38))
     [Tx_read MCP7940_RTCWKDAY 0x38; Tx_write MCP7940_RTCWKDAY 0x3F]) /\
  mcp7940_setweekday (P := register_file_platform) 7
    (rf_world (fun _ => 0x38)) =
  (MCP7940_Error_Fail, rf_world (fun _ => 0x38)).
Proof.
  split; [lia |]. split.
  - destruct (setweekday_programs_device_value (P := register_file_platform)
                6 (rf_world (fun _ => 0x38)) ltac:(lia)) as [Hok _].
    exact (proj1 (Hok ltac:(lia))).
  - destruct (setweekday_programs_device_value (P := register_file_platform)
                7 (rf_world (fun _ => 0x38)) ltac:(lia)) as [_ Hrej].
    exact (Hrej ltac:(lia)).
Defined.

Lemma power_fail_blocks_zero_absent_fields_witness :
  MCP7940_Register_Power_Down_Time <> MCP7940_Register_Current_Time /\
  second (fst (mcp7940_time (P := register_file_platform)
                 {| hour := 1; minute := 2; second := 3 |}
                 MCP7940_Register_Power_Down_Time
                 (rf_world (fun _ => 0x59)))) = 0 /\
  year (fst (mcp7940_date (P := register_file_platform)
               {| day := 1; month := 2; year := 3 |}
               MCP7940_Register_Power_Down_Time
               (rf_world (fun _ => 0x59)))) = 0.
Proof.
  assert (MCP7940_Register_Power_Down_Time <> MCP7940_Register_Current_Time)
    as Hreg by discriminate.
  destruct (power_fail_blocks_zero_absent_fields
              (P := register_file_platform)
              MCP7940_Register_Power_Down_Time
              {| hour := 1; minute := 2; second := 3 |}
              {| day := 1; month := 2; year := 3 |}
              (rf_world (fun _ => 0x59)) Hreg)
    as [(h & m & Hsec & _) (d & mo & Hyear & _)].
  split; [exact Hreg |]. split; [exact Hsec | exact Hyear].
Defined.

(** C8, as the claim states it, fails on a device that stores what is
    written: with the leap-year bit set in the month register, setting the
    valid date 29 February of year 24 leaves the bit clear. *)
Lemma setdate_leap_bit_counterexample :
  ~ (forall (d : FORMAT_Date) (regs : Z -> Z),
       range_validate_date d = RETURN_Valid ->
       Z.testbit
         (registers (snd (mcp7940_setdate (P := register_file_platform) d
                            (rf_world regs))) MCP7940_RTCMTH)
         MCP7940_LPYR_bp =
       Z.testbit (regs MCP7940_RTCMTH) MCP7940_LPYR_bp).
Proof.
  intros H.
  specialize (H {| day := 29; month := 2; year := 24 |}
                (fun a => if a =? MCP7940_RTCMTH then 0x22 else 0)
                eq_refl).
  vm_compute in H. discriminate H.
Qed.

Lemma setdate_overwrites_month_register_witness :
  let d := {| day := 29; month := 2; year := 24 |} in
  let w := rf_world (fun a => if a =? MCP7940_RTCMTH then 0x22 else 0) in
  range_validate_date d = RETURN_Valid /\
  1 <= month d <= 12 /\
  mcp7940_setdate (P := register_file_platform) d w =
    (MCP7940_Error_None,
     after w [Tx_write MCP7940_RTCDATE 0x29; Tx_write MCP7940_RTCMTH 0x02;
              Tx_write MCP7940_RTCYEAR 0x24]).
Proof.
  intros d w.
  assert (range_validate_date d = RETURN_Valid) as Hvalid by reflexivity.
  assert (1 <= month d <= 12) as Hmonth by (simpl; lia).
  split; [exact Hvalid |]. split; [exact Hmonth |].
  exact (proj1 (setdate_overwrites_month_register
                  (P := register_file_platform) d w Hvalid Hmonth)).
Defined.

(** The month register of a storing device after that write. *)
Example setdate_month_register_after :
  let w := rf_world (fun a => if a =? MCP7940_RTCMTH then 0x22 else 0) in
  registers (snd (mcp7940_setdate (P := register_file_platform)
                    {| day := 29; month := 2; year := 24 |} w))
    MCP7940_RTCMTH = 0x02.
Proof. vm_compute. reflexivity. Qed.

(** End to end on a storing device: a time written is the time read back,
    and weekday index 6 reads back as device value 7, labelled SUN. *)
Example settime_then_time :
  let w0 := rf_world (fun _ => 0) in
  let t := {| hour := 23; minute := 59; second := 58 |} in
  let (e, w1) := mcp7940_settime (P := register_file_platform) t w0 in
  let (t', _) :=
    mcp7940_time (P := register_file_platform)
      {| hour := 0; minute := 0; second := 0 |}
      MCP7940_Register_Current_Time w1 in
  e = MCP7940_Error_None /\ t' = t.
Proof. vm_compute. split; reflexivity. Qed.

Example setweekday_then_weekday :
  let w0 := rf_world (fun _ => 0x38) in
  let (e, w1) := mcp7940_setweekday (P := register_file_platform) 6 w0 in
  let (wd, _) :=
    mcp7940_weekday (P := register_file_platform)
      MCP7940_Register_Current_Time w1 in
  e = MCP7940_Error_None /\ wd = 7 /\
  mcp7940_weekday_string wd = Some "SUN"%string.
Proof. vm_compute. repeat split; reflexivity. Qed.

(** * Further properties of the driver *)

(** ** Decoding arbitrary register bytes *)

Lemma land_byte_r (a b : Z) : is_byte b -> is_byte (Z.land a b).
Proof.
  intros Hb. rewrite <- (u8_small b Hb) at 1.
  rewrite u8_land_ones, Z.land_assoc, <- u8_land_ones. apply u8_byte.
Qed.

Lemma shiftr4_nibble (x : Z) : is_byte x -> 0 <= Z.shiftr x 4 <= 15.
Proof.
  unfold is_byte. intros Hx. rewrite Z.shiftr_div_pow2 by lia.
  change (2 ^ 4) with 16. split; [apply Z.div_pos; lia |].
  assert (x / 16 < 16) by (apply Z.div_lt_upper_bound; lia). lia.
Qed.

Lemma land_15_nibble (x : Z) : 0 <= Z.land 0x0F x <= 15.
Proof.
  assert (Z.land 0x0F x = x mod 16) as ->.
  { rewrite Z.land_comm. change 0x0F with (Z.ones 4).
    rewrite Z.land_ones by lia. reflexivity. }
  pose proof (Z.mod_pos_bound x 16 ltac:(lia)). lia.
Qed.

Lemma tobinary_exact (value mask : Z) :
  is_byte value ->
  mcp7940_tobinary value mask =
    Z.shiftr (Z.land mask value) 4 * 10 + Z.land 0x0F value.
Proof.
  intros Hv. unfold mcp7940_tobinary.
  pose proof (shiftr4_nibble _ (land_byte_r mask value Hv)) as Ht.
  pose proof (land_15_nibble value) as Ho.
  apply u8_small. lia.
Qed.

(** The decoder never wraps: for any register byte and any mask the result
    is the tens digit times ten plus the ones nibble, at most 165. *)
Theorem tobinary_no_wrap (value mask : Z) :
  is_byte value ->
  mcp7940_tobinary value mask =
    Z.shiftr (Z.land mask value) 4 * 10 + Z.land 0x0F value /\
  0 <= mcp7940_tobinary value mask <= 165.
Proof.
  intros Hv. rewrite (tobinary_exact value mask Hv).
  pose proof (shiftr4_nibble _ (land_byte_r mask value Hv)) as Ht.
  pose proof (land_15_nibble value) as Ho.
  split; [reflexivity | lia].
Qed.

Lemma tobinary_no_wrap_witness :
  is_byte 0xFF /\ mcp7940_tobinary 0xFF 0xF0 = 165.
Proof.
  assert (is_byte 0xFF) as Hb by (unfold is_byte; lia).
  split; [exact Hb |].
  exact (proj1 (tobinary_no_wrap 0xFF 0xF0 Hb)).
Defined.

Lemma land_lor_absorb_flags (a f v : Z) :
  Z.land f a = 0 -> Z.land a (Z.lor f v) = Z.land a v.
Proof.
  intros Hf. rewrite Z.land_lor_distr_r, (Z.land_comm a f), Hf.
  apply Z.lor_0_l.
Qed.

(** Bits of a register that lie outside the tens mask and outside the ones
    nibble (the oscillator start bit in the seconds register, the 12/24 hour
    bit, the leap-year bit, the power-fail weekday) do not reach the decoded
    magnitude. *)
Theorem tobinary_ignores_flag_bits (flags value mask : Z) :
  Z.land flags (Z.lor mask 0x0F) = 0 ->
  mcp7940_tobinary (Z.lor flags value) mask = mcp7940_tobinary value mask.
Proof.
  intros Hf. unfold mcp7940_tobinary.
  assert (Z.land flags mask = 0) as Hm.
  { apply Z.bits_inj'. intros k Hk.
    apply (f_equal (fun x => Z.testbit x k)) in Hf.
    rewrite Z.land_spec, Z.lor_spec, Z.bits_0 in Hf.
    rewrite Z.land_spec, Z.bits_0.
    destruct (Z.testbit flags k), (Z.testbit mask k); try reflexivity;
      simpl in Hf; discriminate Hf. }
  assert (Z.land flags 0x0F = 0) as Ho.
  { apply Z.bits_inj'. intros k Hk.
    apply (f_equal (fun x => Z.testbit x k)) in Hf.
    rewrite Z.land_spec, Z.lor_spec, Z.bits_0 in Hf.
    rewrite Z.land_spec, Z.bits_0.
    destruct (Z.testbit flags k), (Z.testbit 0x0F k); try reflexivity.
    rewrite orb_true_r in Hf. discriminate Hf. }
  rewrite (land_lor_absorb_flags mask flags value Hm).
  rewrite (land_lor_absorb_flags 0x0F flags value Ho).
  reflexivity.
Qed.

Lemma tobinary_ignores_flag_bits_witness :
  Z.land MCP7940_ST_bm (Z.lor MCP7940_SECTEN_bm 0x0F) = 0 /\
  mcp7940_tobinary (Z.lor MCP7940_ST_bm 0x58) MCP7940_SECTEN_bm =
  mcp7940_tobinary 0x58 MCP7940_SECTEN_bm.
Proof.
  split; [reflexivity |].
  apply (tobinary_ignores_flag_bits MCP7940_ST_bm 0x58 MCP7940_SECTEN_bm).
  reflexivity.
Defined.

(** Encoding what was decoded with the full tens mask gives back every
    byte that is proper binary-coded decimal. *)
Theorem tobcd_tobinary_bcd (b : Z) :
  is_bcd b ->
  mcp7940_tobcd (mcp7940_tobinary b MCP7940_YRTEN_bm) = b.
Proof.
  intros (Hb & Hh & Hl).
  pose proof (shiftr4_nibble b Hb) as Hh'.
  pose proof (land_15_nibble b) as Hl'. rewrite Z.land_comm in Hl'.
  rewrite (tobinary_exact b MCP7940_YRTEN_bm Hb).
  rewrite Z.shiftr_land. change (Z.shiftr MCP7940_YRTEN_bm 4) with (Z.ones 4).
  rewrite Z.land_comm, land_low_mask
    by (change (2 ^ 4) with 16; lia).
  rewrite (Z.land_comm 0x0F b).
  assert (b = 16 * Z.shiftr b 4 + Z.land b 0x0F) as Hsplit.
  { rewrite Z.shiftr_div_pow2 by lia. change 0x0F with (Z.ones 4).
    rewrite Z.land_ones by lia. change (2 ^ 4) with 16.
    apply Z.div_mod. lia. }
  set (h := Z.shiftr b 4) in *. set (l := Z.land b 0x0F) in *.
  rewrite tobcd_arith by lia.
  assert ((h * 10 + l) / 10 = h) as ->
    by (symmetry; apply Z.div_unique with (r := l); lia).
  assert ((h * 10 + l) mod 10 = l) as ->
    by (symmetry; apply Z.mod_unique with (q := h); lia).
  lia.
Qed.

Lemma tobcd_tobinary_bcd_witness :
  is_bcd 0x59 /\ mcp7940_tobcd (mcp7940_tobinary 0x59 MCP7940_YRTEN_bm) = 0x59.
Proof.
  assert (is_bcd 0x59) as Hb.
  { unfold is_bcd. split; [lia |]. split; vm_compute; discriminate. }
  split; [exact Hb | exact (tobcd_tobinary_bcd 0x59 Hb)].
Defined.

(** ** Setting and clearing one flag of a register byte *)

Lemma pow2_byte (n : Z) : 0 <= n <= 7 -> is_byte (2 ^ n).
Proof.
  intros Hn. unfold is_byte.
  assert (n = 0 \/ n = 1 \/ n = 2 \/ n = 3 \/ n = 4 \/ n = 5 \/ n = 6 \/ n = 7)
    as Hc by lia.
  repeat (destruct Hc as [-> | Hc]); try subst n; simpl; lia.
Qed.

Lemma set_flag (n temp : Z) :
  0 <= n <= 7 -> is_byte temp ->
  let written := u8 (Z.lor (2 ^ n) temp) in
  written = Z.lor (2 ^ n) temp /\ is_byte written /\
  Z.testbit written n = true /\
  forall k, 0 <= k -> k <> n -> Z.testbit written k = Z.testbit temp k.
Proof.
  intros Hn Ht written.
  assert (written = Z.lor (2 ^ n) temp) as Hw.
  { subst written. rewrite u8_lor, (u8_small temp Ht).
    rewrite (u8_small _ (pow2_byte n Hn)). reflexivity. }
  split; [exact Hw |]. split; [subst written; apply u8_byte |].
  rewrite Hw. split.
  - rewrite Z.lor_spec, Z.pow2_bits_true by lia. reflexivity.
  - intros k Hk Hne. rewrite Z.lor_spec, Z.pow2_bits_false by lia.
    reflexivity.
Qed.

Lemma clear_flag (n temp : Z) :
  0 <= n <= 7 -> is_byte temp ->
  let written := u8 (Z.land (Z.lnot (2 ^ n)) temp) in
  written = Z.land (Z.lnot (2 ^ n)) temp /\ is_byte written /\
  Z.testbit written n = false /\
  forall k, 0 <= k -> k <> n -> Z.testbit written k = Z.testbit temp k.
Proof.
  intros Hn Ht written.
  assert (written = Z.land (Z.lnot (2 ^ n)) temp) as Hw.
  { subst written. apply u8_small. apply land_byte_r. exact Ht. }
  split; [exact Hw |]. split; [subst written; apply u8_byte |].
  rewrite Hw. split.
  - rewrite Z.land_spec, Z.lnot_spec, Z.pow2_bits_true by lia. reflexivity.
  - intros k Hk Hne.
    rewrite Z.land_spec, Z.lnot_spec, Z.pow2_bits_false by lia. reflexivity.
Qed.

Lemma update_flag_spec (enable : bool) (n temp : Z) :
  0 <= n <= 7 -> is_byte temp ->
  is_byte (update_flag enable n temp) /\
  Z.testbit (update_flag enable n temp) n = enable /\
  forall k, 0 <= k -> k <> n ->
            Z.testbit (update_flag enable n temp) k = Z.testbit temp k.
Proof.
  intros Hn Ht. unfold update_flag. destruct enable.
  - destruct (set_flag n temp Hn Ht) as (_ & H1 & H2 & H3). auto.
  - destruct (clear_flag n temp Hn Ht) as (_ & H1 & H2 & H3). auto.
Qed.

(** ** Configuration control on any device *)

Section ControlProperties.

Context {P : Platform}.

Lemma run_battery (mode : MCP7940_Mode) (w : World bus_device) :
  let temp := read_value bus_device MCP7940_RTCWKDAY (device w) in
  mcp7940_battery mode w =
    (tt, after w [Tx_read MCP7940_RTCWKDAY temp;
                  Tx_write MCP7940_RTCWKDAY
                    (update_flag (mode_enabled mode) 3 temp)]).
Proof.
  intros temp. unfold mcp7940_battery, bind. rewrite run_read. fold temp.
  destruct mode; rewrite run_write, after_after; reflexivity.
Qed.

Lemma run_oscillator (mode : MCP7940_Mode) (w : World bus_device) :
  let address := oscillator_register config in
  let temp := read_value bus_device address (device w) in
  mcp7940_oscillator mode w =
    (tt, after w [Tx_read address temp;
                  Tx_write address
                    (update_flag (mode_enabled mode) (oscillator_bit config)
                       temp)]).
Proof.
  cbv zeta. unfold mcp7940_oscillator, oscillator_register, oscillator_bit,
    bind.
  destruct (MCP7940_USE_EXTOSC config); rewrite run_read;
    destruct mode; rewrite run_write, after_after; reflexivity.
Qed.

Lemma oscillator_bit_range : 0 <= oscillator_bit config <= 7.
Proof.
  unfold oscillator_bit. destruct (MCP7940_USE_EXTOSC config); lia.
Qed.

(** [mcp7940_battery] is a read-modify-write of the weekday register: one
    read, then one write of the byte read with the battery-enable bit (bit 3)
    set for Enable and cleared for Disable, every other bit as read. *)
Theorem battery_read_modify_write (mode : MCP7940_Mode) (w : World bus_device) :
  let temp := read_value bus_device MCP7940_RTCWKDAY (device w) in
  exists written,
    mcp7940_battery mode w =
      (tt, after w [Tx_read MCP7940_RTCWKDAY temp;
                    Tx_write MCP7940_RTCWKDAY written]) /\
    is_byte written /\
    Z.testbit written 3 =
      match mode with
      | MCP7940_Mode_Enable => true
      | MCP7940_Mode_Disable => false
      end /\
    forall k, 0 <= k -> k <> 3 -> Z.testbit written k = Z.testbit temp k.
Proof.
  intros temp. pose proof (run_battery mode w) as Hrun. cbv zeta in Hrun.
  fold temp in Hrun.
  destruct (update_flag_spec (mode_enabled mode) 3 temp ltac:(lia)
              (read_value_byte _ _)) as (Hbyte & Hbit & Hkeep).
  eexists. split; [exact Hrun |]. split; [exact Hbyte |].
  split; [rewrite Hbit; destruct mode; reflexivity | exact Hkeep].
Qed.

(** [mcp7940_oscillator] touches one register only, chosen by the build:
    the external-oscillator bit (bit 3) of the control register, or else the
    start bit (bit 7) of the seconds register.  It reads that register once
    and writes it back with the one bit set for Enable, cleared for Disable,
    and all other bits (the seconds digits among them) as read. *)
Theorem oscillator_read_modify_write
  (mode : MCP7940_Mode) (w : World bus_device) :
  let address :=
    if MCP7940_USE_EXTOSC config then MCP7940_CONTROL else MCP7940_RTCSEC in
  let bit := if MCP7940_USE_EXTOSC config then 3 else 7 in
  let temp := read_value bus_device address (device w) in
  exists written,
    mcp7940_oscillator mode w =
      (tt, after w [Tx_read address temp; Tx_write address written]) /\
    is_byte written /\
    Z.testbit written bit =
      match mode with
      | MCP7940_Mode_Enable => true
      | MCP7940_Mode_Disable => false
      end /\
    forall k, 0 <= k -> k <> bit -> Z.testbit written k = Z.testbit temp k.
Proof.
  intros address bit temp.
  pose proof (run_oscillator mode w) as Hrun. cbv zeta in Hrun.
  change (oscillator_register config) with address in Hrun.
  change (oscillator_bit config) with bit in Hrun. fold temp in Hrun.
  destruct (update_flag_spec (mode_enabled mode) bit temp oscillator_bit_range
              (read_value_byte _ _)) as (Hbyte & Hbit & Hkeep).
  eexists. split; [exact Hrun |]. split; [exact Hbyte |].
  split; [rewrite Hbit; destruct mode; reflexivity | exact Hkeep].
Qed.

(** [mcp7940_mfp_output] is a read-modify-write of the control register: the
    output-level bit (bit 7) is set for Enable and cleared for Disable, every
    other control bit is written back as read. *)
Theorem mfp_output_read_modify_write
  (output : MCP7940_Mode) (w : World bus_device) :
  let temp := read_value bus_device MCP7940_CONTROL (device w) in
  exists written,
    mcp7940_mfp_output output w =
      (tt, after w [Tx_read MCP7940_CONTROL temp;
                    Tx_write MCP7940_CONTROL written]) /\
    is_byte written /\
    Z.testbit written 7 =
      match output with
      | MCP7940_Mode_Enable => true
      | MCP7940_Mode_Disable => false
      end /\
    forall k, 0 <= k -> k <> 7 -> Z.testbit written k = Z.testbit temp k.
Proof.
  intros temp. unfold mcp7940_mfp_output, bind. rewrite run_read. fold temp.
  change MCP7940_OUT_bm with (2 ^ 7).
  pose proof (read_value_byte MCP7940_CONTROL (device w)) as Hb.
  fold temp in Hb.
  destruct output; cbn [MCP7940_Mode_value Z.eqb negb];
    rewrite run_write, after_after; cbn [app].
  - destruct (clear_flag 7 temp ltac:(lia) Hb) as (_ & H1 & H2 & H3).
    eexists. split; [reflexivity |]. split; [exact H1 |].
    split; [exact H2 | exact H3].
  - destruct (set_flag 7 temp ltac:(lia) Hb) as (_ & H1 & H2 & H3).
    eexists. split; [reflexivity |]. split; [exact H1 |].
    split; [exact H2 | exact H3].
Qed.

Lemma status_mask_bits (k : Z) :
  0 <= k -> Z.testbit 0x38 k = (3 <=? k) && (k <=? 5).
Proof.
  intros Hk.
  destruct (Z.leb_spec k 5) as [Hle | Hgt].
  - assert (k = 0 \/ k = 1 \/ k = 2 \/ k = 3 \/ k = 4 \/ k = 5) as Hc by lia.
    repeat (destruct Hc as [-> | Hc]); try subst k; reflexivity.
  - rewrite andb_false_r. apply Z.bits_above_log2; [lia |].
    change (Z.log2 0x38) with 5. lia.
Qed.

(** [mcp7940_status] reads the weekday register once and writes nothing.
    The value returned carries the oscillator-running, power-fail and
    battery-enable bits (bits 5, 4, 3) exactly as read and no other bit; it
    is [MCP7940_Status_None] (zero) exactly when all three are clear. *)
Theorem status_reports_three_flags (w : World bus_device) :
  let temp := read_value bus_device MCP7940_RTCWKDAY (device w) in
  let flags := fst (mcp7940_status w) in
  snd (mcp7940_status w) = after w [Tx_read MCP7940_RTCWKDAY temp] /\
  (forall k, 0 <= k ->
     Z.testbit flags k = Z.testbit temp k && ((3 <=? k) && (k <=? 5))) /\
  0 <= flags <= 0x38 /\
  (flags = 0 <->
   Z.testbit temp 3 = false /\ Z.testbit temp 4 = false /\
   Z.testbit temp 5 = false).
Proof.
  intros temp flags. subst flags.
  unfold mcp7940_status, bind, ret. rewrite run_read. fold temp.
  cbn [fst snd].
  change (Z.lor (Z.lor MCP7940_OSCRUN_bm MCP7940_PWRFAIL_bm) MCP7940_VBATEN_bm)
    with 0x38.
  assert (forall k, 0 <= k ->
            Z.testbit (Z.land temp 0x38) k =
            Z.testbit temp k && ((3 <=? k) && (k <=? 5))) as Hbits.
  { intros k Hk. rewrite Z.land_spec, status_mask_bits by exact Hk.
    reflexivity. }
  split; [reflexivity |]. split; [exact Hbits |]. split.
  - assert (is_byte (Z.land temp 0x38)) as Hb
      by (apply land_byte_r; unfold is_byte; lia).
    split; [apply Hb |].
    assert (Z.land (Z.land temp 0x38) 0x07 = 0) as Hlow.
    { rewrite <- Z.land_assoc. change (Z.land 0x38 0x07) with 0.
      apply Z.land_0_r. }
    assert (Z.land (Z.land temp 0x38) 0xC0 = 0) as Hhigh.
    { rewrite <- Z.land_assoc. change (Z.land 0x38 0xC0) with 0.
      apply Z.land_0_r. }
    destruct (Z.le_gt_cases (Z.land temp 0x38) 0x38) as [Hle | Hgt];
      [exact Hle | exfalso].
    change 0xC0 with (Z.lor (2 ^ 6) (2 ^ 7)) in Hhigh.
    assert (Z.testbit (Z.land temp 0x38) 6 = false) as H6
      by (rewrite Hbits by lia; apply andb_false_r).
    assert (Z.testbit (Z.land temp 0x38) 7 = false) as H7
      by (rewrite Hbits by lia; apply andb_false_r).
    assert (Z.land temp 0x38 < 2 ^ 6) as Hlt.
    { destruct (Z.eq_dec (Z.land temp 0x38) 0) as [-> | Hnz]; [simpl; lia |].
      apply Z.log2_lt_pow2; [unfold is_byte in Hb; lia |].
      destruct (Z.lt_ge_cases (Z.log2 (Z.land temp 0x38)) 6) as [Hl | Hg];
        [exact Hl | exfalso].
      assert (Z.log2 (Z.land temp 0x38) < 8).
      { apply Z.log2_lt_pow2; [unfold is_byte in Hb; lia |].
        change (2 ^ 8) with 256. unfold is_byte in Hb. lia. }
      pose proof (Z.bit_log2 (Z.land temp 0x38)
                    ltac:(unfold is_byte in Hb; lia)) as Htop.
      assert (Z.log2 (Z.land temp 0x38) = 6 \/
              Z.log2 (Z.land temp 0x38) = 7) as [He | He] by lia;
        rewrite He in Htop; congruence. }
    change (2 ^ 6) with 64 in Hlt.
    assert (Z.land temp 0x38 mod 8 = 0) as Hmod.
    { change 0x07 with (Z.ones 3) in Hlow.
      rewrite Z.land_ones in Hlow by lia. exact Hlow. }
    change (2 ^ 3) with 8 in Hmod.
    pose proof (Z.div_mod (Z.land temp 0x38) 8 ltac:(lia)) as Hdm.
    assert (Z.land temp 0x38 / 8 < 8)
      by (apply Z.div_lt_upper_bound; lia).
    lia.
  - split.
    + intros Hz.
      pose proof (Hbits 3 ltac:(lia)) as H3.
      pose proof (Hbits 4 ltac:(lia)) as H4.
      pose proof (Hbits 5 ltac:(lia)) as H5.
      rewrite Hz, Z.bits_0 in H3, H4, H5.
      cbn [Z.leb Z.compare Pos.compare Pos.compare_cont andb] in H3, H4, H5.
      rewrite andb_true_r in H3, H4, H5. repeat split; congruence.
    + intros (H3 & H4 & H5). apply Z.bits_inj'. intros k Hk.
      rewrite Hbits, Z.bits_0 by exact Hk.
      destruct (Z.leb_spec 3 k) as [Hge | Hlt];
        [| rewrite andb_false_r; reflexivity].
      destruct (Z.leb_spec k 5) as [Hle | Hgt];
        [| rewrite andb_false_r; reflexivity].
      assert (k = 3 \/ k = 4 \/ k = 5) as [-> | [-> | ->]] by lia;
        rewrite ?H3, ?H4, ?H5; reflexivity.
Qed.


(** *** Writing a valid time *)

(** For a time the validator accepts, [mcp7940_settime] returns
    [MCP7940_Error_None] after exactly five transactions: the BCD hour,
    minute and second written to the current-time registers, then the
    oscillator read-modify-write that sets the start (or external
    oscillator) bit and keeps every other bit it read. *)
Lemma run_settime_valid (t : FORMAT_Time) (w : World bus_device) :
  validate_time t = RETURN_Valid ->
  let writes := [Tx_write MCP7940_RTCHOUR (mcp7940_tobcd (hour t));
                 Tx_write MCP7940_RTCMIN (mcp7940_tobcd (minute t));
                 Tx_write MCP7940_RTCSEC (mcp7940_tobcd (second t))] in
  let o := read_value bus_device (oscillator_register config)
             (device (after w writes)) in
  mcp7940_settime t w =
    (MCP7940_Error_None,
     after w (writes ++
              [Tx_read (oscillator_register config) o;
               Tx_write (oscillator_register config)
                 (update_flag true (oscillator_bit config) o)])).
Proof.
  intros Hvalid writes o. unfold mcp7940_settime, bind, ret.
  rewrite Hvalid, run_setdata. fold writes.
  pose proof (run_oscillator MCP7940_Mode_Enable (after w writes)) as Hosc.
  cbv zeta in Hosc. fold o in Hosc. rewrite Hosc, after_after. reflexivity.
Qed.

Theorem settime_valid_sequence (t : FORMAT_Time) (w : World bus_device) :
  validate_time t = RETURN_Valid ->
  let osc := if MCP7940_USE_EXTOSC config
             then MCP7940_CONTROL else MCP7940_RTCSEC in
  let osc_bit := if MCP7940_USE_EXTOSC config then 3 else 7 in
  let writes := [Tx_write MCP7940_RTCHOUR (mcp7940_tobcd (hour t));
                 Tx_write MCP7940_RTCMIN (mcp7940_tobcd (minute t));
                 Tx_write MCP7940_RTCSEC (mcp7940_tobcd (second t))] in
  let o := read_value bus_device osc (device (after w writes)) in
  exists o',
    mcp7940_settime t w =
      (MCP7940_Error_None,
       after w (writes ++ [Tx_read osc o; Tx_write osc o'])) /\
    is_byte o' /\
    Z.testbit o' osc_bit = true /\
    (forall k, 0 <= k -> k <> osc_bit -> Z.testbit o' k = Z.testbit o k).
Proof.
  intros Hvalid osc osc_bit writes o.
  pose proof (run_settime_valid t w Hvalid) as Hrun. cbv zeta in Hrun.
  fold writes in Hrun.
  change (oscillator_register config) with osc in Hrun.
  change (oscillator_bit config) with osc_bit in Hrun. fold o in Hrun.
  destruct (update_flag_spec true osc_bit o oscillator_bit_range
              (read_value_byte _ _)) as (Hbyte & Hbit & Hkeep).
  eexists. split; [exact Hrun |]. split; [exact Hbyte |].
  split; [exact Hbit | exact Hkeep].
Qed.

(** *** Register block selection *)

(** The read routines never write.  [mcp7940_datetime] issues only reads, at
    the addresses of the selected block in the order hour, minute, (second,)
    day, month, (year): six registers of the current-time block, four of
    either power-fail block. *)
Theorem datetime_reads_selected_block
  (dtm : FORMAT_DateTime) (reg : MCP7940_Register) (w : World bus_device) :
  exists txs,
    snd (mcp7940_datetime dtm reg w) = after w txs /\
    forallb is_read txs = true /\
    map tx_address txs =
      match reg with
      | MCP7940_Register_Current_Time =>
          [MCP7940_RTCHOUR; MCP7940_RTCMIN; MCP7940_RTCSEC;
           MCP7940_RTCDATE; MCP7940_RTCMTH; MCP7940_RTCYEAR]
      | MCP7940_Register_Power_Down_Time =>
          [MCP7940_PWRDNHOUR; MCP7940_PWRDNMIN;
           MCP7940_PWRDNDATE; MCP7940_PWRDNMTH]
      | MCP7940_Register_Power_Up_Time =>
          [MCP7940_PWRUPHOUR; MCP7940_PWRUPMIN;
           MCP7940_PWRUPDATE; MCP7940_PWRUPMTH]
      end.
Proof.
  unfold mcp7940_datetime, mcp7940_time, mcp7940_date, mcp7940_hour,
    mcp7940_minute, mcp7940_second, mcp7940_day, mcp7940_month, mcp7940_year,
    bind, ret.
  destruct reg; rewrite !run_data, !after_after; cbn [app snd];
    (eexists; split; [reflexivity | split; reflexivity]).
Qed.

Lemma land_le_l (x y : Z) : 0 <= x -> Z.land x y <= x.
Proof.
  intros Hx.
  assert (x = Z.lor (Z.land x y) (Z.land x (Z.lnot y))) as Hsplit.
  { apply Z.bits_inj'. intros k Hk.
    rewrite Z.lor_spec, !Z.land_spec, Z.lnot_spec by exact Hk.
    destruct (Z.testbit x k), (Z.testbit y k); reflexivity. }
  assert (Z.land (Z.land x y) (Z.land x (Z.lnot y)) = 0) as Hdis.
  { apply Z.bits_inj'. intros k Hk.
    rewrite !Z.land_spec, Z.lnot_spec, Z.bits_0 by exact Hk.
    destruct (Z.testbit x k), (Z.testbit y k); reflexivity. }
  rewrite <- Z.lxor_lor in Hsplit by exact Hdis.
  rewrite <- Z.add_nocarry_lxor in Hsplit by exact Hdis.
  assert (0 <= Z.land x (Z.lnot y)) by (apply Z.land_nonneg; lia).
  lia.
Qed.

(** What the decoder can return for a given tens mask. *)
Lemma tobinary_bound (b mask : Z) :
  is_byte b -> is_byte mask ->
  0 <= mcp7940_tobinary b mask <= Z.shiftr mask 4 * 10 + 15.
Proof.
  intros Hb Hm. rewrite (tobinary_exact b mask Hb).
  pose proof (land_15_nibble b) as Ho.
  pose proof (shiftr4_nibble _ (land_byte_r mask b Hb)) as Ht.
  pose proof (shiftr4_nibble mask Hm) as Hms.
  assert (Z.shiftr (Z.land mask b) 4 <= Z.shiftr mask 4)
    by (rewrite Z.shiftr_land; apply land_le_l; lia).
  lia.
Qed.

Lemma data_bound (address mask : Z) (w : World bus_device) :
  is_byte mask ->
  0 <= fst (mcp7940_data address mask w) <= Z.shiftr mask 4 * 10 + 15.
Proof.
  intros Hm. rewrite run_data. cbn [fst].
  apply tobinary_bound; [apply read_value_byte | exact Hm].
Qed.

(** Every field [mcp7940_time] and [mcp7940_date] deliver is the decoding of
    a byte the device returned (or the constant zero), so hour and day are at
    most 45, minute and second at most 85, month at most 25 and year at most
    165, whatever the device holds: the driver does not check that a register
    is proper BCD or in range. *)
Theorem read_fields_bounded
  (tm : FORMAT_Time) (dt : FORMAT_Date) (reg : MCP7940_Register)
  (w : World bus_device) :
  let t := fst (mcp7940_time tm reg w) in
  let d := fst (mcp7940_date dt reg w) in
  0 <= hour t <= 45 /\ 0 <= minute t <= 85 /\ 0 <= second t <= 85 /\
  0 <= day d <= 45 /\ 0 <= month d <= 25 /\ 0 <= year d <= 165.
Proof.
  assert (is_byte MCP7940_HRTEN_bm /\ is_byte MCP7940_MINTEN_bm /\
          is_byte MCP7940_SECTEN_bm /\ is_byte MCP7940_DATETEN_bm /\
          is_byte MCP7940_MTHTEN_bm /\ is_byte MCP7940_YRTEN_bm)
    as (Bh & Bm & Bs & Bd & Bo & By)
    by (unfold is_byte; repeat split; discriminate).
  intros t d. subst t d.
  unfold mcp7940_time, mcp7940_date, mcp7940_hour, mcp7940_minute,
    mcp7940_second, mcp7940_day, mcp7940_month, mcp7940_year, bind, ret.
  repeat match goal with
  | |- context [mcp7940_data ?a ?m ?w0] =>
      let H := fresh "Hdata" in
      let v := fresh "v" in
      let w1 := fresh "w" in
      pose proof (data_bound a m w0) as H;
      destruct (mcp7940_data a m w0) as [v w1]; cbn [fst] in H
  end.
  destruct reg;
    repeat match goal with
    | |- context [mcp7940_data ?a ?m ?w0] =>
        let H := fresh "Hdata" in
        let v := fresh "v" in
        let w1 := fresh "w" in
        pose proof (data_bound a m w0) as H;
        destruct (mcp7940_data a m w0) as [v w1]; cbn [fst] in H
    end;
    cbn [fst snd set_hour set_minute set_second set_day set_month set_year
         hour minute second day month year];
    repeat match goal with
    | H : is_byte ?m -> _ |- _ => first
        [ specialize (H Bh) | specialize (H Bm) | specialize (H Bs)
        | specialize (H Bd) | specialize (H Bo) | specialize (H By) ]
    end;
    change (Z.shiftr MCP7940_HRTEN_bm 4 * 10 + 15) with 45 in *;
    change (Z.shiftr MCP7940_MINTEN_bm 4 * 10 + 15) with 85 in *;
    change (Z.shiftr MCP7940_SECTEN_bm 4 * 10 + 15) with 85 in *;
    change (Z.shiftr MCP7940_DATETEN_bm 4 * 10 + 15) with 45 in *;
    change (Z.shiftr MCP7940_MTHTEN_bm 4 * 10 + 15) with 25 in *;
    change (Z.shiftr MCP7940_YRTEN_bm 4 * 10 + 15) with 165 in *;
    lia.
Qed.

(** *** Reading the weekday *)

(** [mcp7940_weekday] issues one read and returns a value in [0,7]: the low
    three bits of the weekday register for the current-time block, the top
    three bits of the block's month register for a power-fail block. *)
Theorem weekday_read_field (reg : MCP7940_Register) (w : World bus_device) :
  let address :=
    match reg with
    | MCP7940_Register_Current_Time => MCP7940_RTCWKDAY
    | MCP7940_Register_Power_Down_Time => MCP7940_PWRDNMTH
    | MCP7940_Register_Power_Up_Time => MCP7940_PWRUPMTH
    end in
  let b := read_value bus_device address (device w) in
  snd (mcp7940_weekday reg w) = after w [Tx_read address b] /\
  fst (mcp7940_weekday reg w) =
    match reg with
    | MCP7940_Register_Current_Time => b mod 8
    | _ => b / 32
    end /\
  0 <= fst (mcp7940_weekday reg w) <= 7.
Proof.
  intros address b.
  assert (is_byte b) as Hb by apply read_value_byte.
  assert (Z.land 0x07 b = b mod 8) as Hlow.
  { rewrite Z.land_comm. change 0x07 with (Z.ones 3).
    rewrite Z.land_ones by lia. reflexivity. }
  assert (Z.shiftr (Z.land 0xE0 b) MCP7940_PWRWEEKDAY_bp = b / 32) as Hhigh.
  { unfold MCP7940_PWRWEEKDAY_bp. rewrite Z.shiftr_land.
    change (Z.shiftr 0xE0 5) with (Z.ones 3).
    rewrite Z.shiftr_div_pow2 by lia. change (2 ^ 5) with 32.
    rewrite Z.land_comm. apply land_low_mask; [lia |].
    change (2 ^ 3) with 8. unfold is_byte in Hb.
    split; [apply Z.div_pos; lia | apply Z.div_lt_upper_bound; lia]. }
  pose proof (Z.mod_pos_bound b 8 ltac:(lia)) as Hm.
  assert (0 <= b / 32 <= 7) as Hd.
  { unfold is_byte in Hb. split; [apply Z.div_pos; lia |].
    assert (b / 32 < 8) by (apply Z.div_lt_upper_bound; lia). lia. }
  subst address b.
  unfold mcp7940_weekday, bind, ret.
  destruct reg; rewrite run_read; cbn [fst snd];
    rewrite ?Hlow, ?Hhigh; (split; [reflexivity | split; [reflexivity | lia]]).
Qed.

(** *** Trim magnitudes above 127 *)

(** [mcp7940_trimming] accepts any byte as magnitude: bit 7 of the argument
    is dropped, the byte written carries the argument's low seven bits and
    the direction in bit 7, and one write and one read are issued. *)
Lemma trim_byte_spec (mode : MCP7940_Trim) (v : Z) :
  let written :=
    match mode with
    | MCP7940_Trim_Add => u8 (Z.lor (Z.land v 0x7F) 0x80)
    | MCP7940_Trim_Substract => Z.land v 0x7F
    end in
  is_byte written /\
  Z.land written 0x7F = v mod 128 /\
  Z.testbit written 7 =
    match mode with MCP7940_Trim_Add => true | _ => false end.
Proof.
  assert (Z.land v 0x7F = v mod 128) as Hmask.
  { change 0x7F with (Z.ones 7). rewrite Z.land_ones by lia. reflexivity. }
  pose proof (Z.mod_pos_bound v 128 ltac:(lia)) as Hm.
  cbv zeta. rewrite Hmask. destruct mode.
  - split; [unfold is_byte; lia |].
    split; [apply trim_magnitude; lia | apply trim_subtract_sign; lia].
  - assert (u8 (Z.lor (v mod 128) 0x80) = Z.lor 0x80 (v mod 128)) as Hadd.
    { pose proof (trim_add_byte (v mod 128) ltac:(lia)) as H.
      rewrite trim_magnitude in H by lia. exact H. }
    destruct (trim_add_sign (v mod 128) ltac:(lia)) as [Hs Hl].
    split; [apply u8_byte |]. rewrite Hadd. split; [exact Hl | exact Hs].
Qed.

Theorem trimming_masks_magnitude
  (mode : MCP7940_Trim) (v : Z) (w : World bus_device) :
  exists written readback,
    snd (mcp7940_trimming mode v w) =
      after w [Tx_write MCP7940_OSCTRIM written;
               Tx_read MCP7940_OSCTRIM readback] /\
    is_byte written /\
    Z.land written 0x7F = v mod 128 /\
    Z.testbit written 7 =
      match mode with MCP7940_Trim_Add => true | _ => false end /\
    mcp7940_trimming mode v w = mcp7940_trimming mode (v mod 128) w.
Proof.
  pose proof (Z.mod_pos_bound v 128 ltac:(lia)) as Hm.
  assert (Z.land v 0x7F = v mod 128) as Hmask.
  { change 0x7F with (Z.ones 7). rewrite Z.land_ones by lia. reflexivity. }
  pose proof (run_trimming mode v w) as Hrun. cbv zeta in Hrun.
  pose proof (run_trimming mode (v mod 128) w) as Hrun'. cbv zeta in Hrun'.
  rewrite (trim_magnitude (v mod 128)) in Hrun' by lia.
  destruct (trim_byte_spec mode v) as (Hbyte & Hlow & Hsign).
  rewrite Hrun, Hrun'. cbn [snd].
  do 2 eexists. split; [reflexivity |].
  split; [exact Hbyte |]. split; [exact Hlow |].
  split; [exact Hsign | rewrite Hmask; reflexivity].
Qed.

(** *** Setting time and date together *)

Lemma settime_result (t : FORMAT_Time) (w : World bus_device) :
  fst (mcp7940_settime t w) =
  match validate_time t with
  | RETURN_Valid => MCP7940_Error_None
  | _ => MCP7940_Error_Fail
  end.
Proof.
  unfold mcp7940_settime, bind, ret.
  destruct (validate_time t); [| reflexivity].
  destruct (mcp7940_setdata _ _ _ _ _ _ w) as [u w1].
  destruct (mcp7940_oscillator _ w1) as [u' w2]. reflexivity.
Qed.

Lemma setdate_result (d : FORMAT_Date) (w : World bus_device) :
  fst (mcp7940_setdate d w) =
  match validate_date d with
  | RETURN_Valid => MCP7940_Error_None
  | _ => MCP7940_Error_Fail
  end.
Proof.
  unfold mcp7940_setdate, bind, ret.
  destruct (validate_date d); [| reflexivity].
  destruct (mcp7940_setdata _ _ _ _ _ _ w) as [u w1]. reflexivity.
Qed.

Lemma setdatetime_unfold (dtm : FORMAT_DateTime) (w : World bus_device) :
  mcp7940_setdatetime dtm w =
  (Z.lor (Z.lor 0 (MCP7940_Error_value (fst (mcp7940_settime (time dtm) w))))
     (MCP7940_Error_value
        (fst (mcp7940_setdate (date dtm)
                (snd (mcp7940_settime (time dtm) w))))),
   snd (mcp7940_setdate (date dtm) (snd (mcp7940_settime (time dtm) w)))).
Proof.
  unfold mcp7940_setdatetime, bind, ret.
  destruct (mcp7940_settime (time dtm) w) as [e1 w1]. cbn [fst snd].
  destruct (mcp7940_setdate (date dtm) w1) as [e2 w2]. reflexivity.
Qed.

(** [mcp7940_setdatetime] returns the value of [MCP7940_Error_None] (0) when
    both validators accept and the value of [MCP7940_Error_Fail] (1) when
    either rejects, also when both do; no other value is returned. *)
Theorem setdatetime_result (dtm : FORMAT_DateTime) (w : World bus_device) :
  fst (mcp7940_setdatetime dtm w) =
  match validate_time (time dtm), validate_date (date dtm) with
  | RETURN_Valid, RETURN_Valid => MCP7940_Error_value MCP7940_Error_None
  | _, _ => MCP7940_Error_value MCP7940_Error_Fail
  end.
Proof.
  rewrite setdatetime_unfold. cbn [fst].
  rewrite settime_result, setdate_result.
  destruct (validate_time (time dtm)), (validate_date (date dtm));
    reflexivity.
Qed.

(** [mcp7940_setdatetime] is not all-or-nothing.  When the time is rejected
    and the date accepted, the three date registers are still written and
    failure is returned; when the time is accepted and the date rejected,
    the time is written (five transactions, the oscillator bit set last) and
    failure is returned. *)
Theorem setdatetime_partial_write
  (dtm : FORMAT_DateTime) (w : World bus_device) :
  (validate_time (time dtm) <> RETURN_Valid ->
   validate_date (date dtm) = RETURN_Valid ->
   mcp7940_setdatetime dtm w =
     (1, after w
           [Tx_write MCP7940_RTCDATE (mcp7940_tobcd (day (date dtm)));
            Tx_write MCP7940_RTCMTH (mcp7940_tobcd (month (date dtm)));
            Tx_write MCP7940_RTCYEAR (mcp7940_tobcd (year (date dtm)))])) /\
  (validate_time (time dtm) = RETURN_Valid ->
   validate_date (date dtm) <> RETURN_Valid ->
   mcp7940_setdatetime dtm w =
     (1, snd (mcp7940_settime (time dtm) w)) /\
   exists o o',
     snd (mcp7940_settime (time dtm) w) =
       after w
         [Tx_write MCP7940_RTCHOUR (mcp7940_tobcd (hour (time dtm)));
          Tx_write MCP7940_RTCMIN (mcp7940_tobcd (minute (time dtm)));
          Tx_write MCP7940_RTCSEC (mcp7940_tobcd (second (time dtm)));
          Tx_read (if MCP7940_USE_EXTOSC config
                   then MCP7940_CONTROL else MCP7940_RTCSEC) o;
          Tx_write (if MCP7940_USE_EXTOSC config
                    then MCP7940_CONTROL else MCP7940_RTCSEC) o']).
Proof.
  split.
  - intros Ht Hd. rewrite setdatetime_unfold.
    rewrite settime_result, setdate_result, Hd.
    assert (mcp7940_settime (time dtm) w = (MCP7940_Error_Fail, w)) as Hrej.
    { unfold mcp7940_settime, ret.
      destruct (validate_time (time dtm)); [congruence | reflexivity]. }
    rewrite Hrej. cbn [snd].
    unfold mcp7940_setdate, bind, ret. rewrite Hd, run_setdata. cbn [snd].
    destruct (validate_time (time dtm)); [congruence | reflexivity].
  - intros Ht Hd. rewrite setdatetime_unfold.
    rewrite settime_result, setdate_result, Ht.
    assert (forall w', mcp7940_setdate (date dtm) w' =
                       (MCP7940_Error_Fail, w')) as Hrej.
    { intros w'. unfold mcp7940_setdate, ret.
      destruct (validate_date (date dtm)); [congruence | reflexivity]. }
    rewrite Hrej. cbn [snd]. split.
    + destruct (validate_date (date dtm)); [congruence | reflexivity].
    + pose proof (run_settime_valid (time dtm) w Ht) as Hrun.
      cbv zeta in Hrun. rewrite Hrun. cbn [snd app].
      do 2 eexists. reflexivity.
Qed.

End ControlProperties.

(** ** The driver on a device that stores what is written *)

(** Two register bytes that agree on the bits of the tens mask and of the
    ones nibble decode to the same magnitude. *)
Lemma tobinary_bits_ext (a b mask : Z) :
  (forall k, 0 <= k -> Z.testbit (Z.lor mask 0x0F) k = true ->
             Z.testbit a k = Z.testbit b k) ->
  mcp7940_tobinary a mask = mcp7940_tobinary b mask.
Proof.
  intros Hext. unfold mcp7940_tobinary.
  assert (Z.land mask a = Z.land mask b) as ->.
  { apply Z.bits_inj'. intros k Hk. rewrite !Z.land_spec.
    destruct (Z.testbit mask k) eqn:Hm; [| reflexivity].
    cbn [andb]. apply Hext; [exact Hk |].
    rewrite Z.lor_spec, Hm. reflexivity. }
  assert (Z.land 0x0F a = Z.land 0x0F b) as ->.
  { apply Z.bits_inj'. intros k Hk. rewrite !Z.land_spec.
    destruct (Z.testbit 0x0F k) eqn:Hm; [| reflexivity].
    cbn [andb]. apply Hext; [exact Hk |].
    rewrite Z.lor_spec, Hm. apply orb_true_r. }
  reflexivity.
Qed.

Lemma tobcd_byte (v : Z) : u8 (mcp7940_tobcd v) = mcp7940_tobcd v.
Proof. unfold mcp7940_tobcd. apply u8_idem. Qed.

Lemma range_validate_time_valid (t : FORMAT_Time) :
  range_validate_time t = RETURN_Valid ->
  0 <= hour t <= 23 /\ 0 <= minute t <= 59 /\ 0 <= second t <= 59.
Proof.
  unfold range_validate_time.
  destruct (Z.leb_spec 0 (hour t)), (Z.leb_spec (hour t) 23),
    (Z.leb_spec 0 (minute t)), (Z.leb_spec (minute t) 59),
    (Z.leb_spec 0 (second t)), (Z.leb_spec (second t) 59);
    cbn [andb]; intros Hv; try discriminate Hv; lia.
Qed.

Lemma range_validate_date_valid (d : FORMAT_Date) :
  range_validate_date d = RETURN_Valid ->
  1 <= day d <= 31 /\ 1 <= month d <= 12 /\ 0 <= year d <= 99.
Proof.
  unfold range_validate_date.
  destruct (Z.leb_spec 1 (day d)), (Z.leb_spec (day d) 31),
    (Z.leb_spec 1 (month d)), (Z.leb_spec (month d) 12),
    (Z.leb_spec 0 (year d)), (Z.leb_spec (year d) 99);
    cbn [andb]; intros Hv; try discriminate Hv; lia.
Qed.

Lemma rf_store_eq (a d : Z) (r : Z -> Z) : rf_store a d r a = d.
Proof. unfold rf_store. rewrite Z.eqb_refl. reflexivity. Qed.

Lemma rf_store_neq (a b d : Z) (r : Z -> Z) :
  b <> a -> rf_store a d r b = r b.
Proof.
  intros Hne. unfold rf_store.
  destruct (Z.eqb_spec b a); [contradiction | reflexivity].
Qed.

Lemma stored_app (ts1 ts2 : list Transaction) (regs : Z -> Z) :
  stored (ts1 ++ ts2) regs = stored ts2 (stored ts1 regs).
Proof. unfold stored. apply fold_left_app. Qed.

Lemma stored_reads (ts : list Transaction) (regs : Z -> Z) :
  forallb is_read ts = true -> stored ts regs = regs.
Proof.
  revert regs. induction ts as [| t ts IH]; intros regs Hr; [reflexivity |].
  cbn [forallb] in Hr. apply andb_prop in Hr as [Ht Hts].
  destruct t; [discriminate Ht |]. cbn [stored fold_left]. apply IH. exact Hts.
Qed.

Section StoringDevice.

Variable cfg : Config.

Local Notation "'SP'" := (storing_platform cfg).

Lemma rf_read_value (a : Z) (d : RegisterFile) :
  read_value register_file a d = u8 (rf_regs d a).
Proof. reflexivity. Qed.

Lemma rf_after_one (t : Transaction) (w : World register_file) :
  registers (after w [t]) = stored [t] (registers w).
Proof. destruct t; reflexivity. Qed.

Lemma rf_registers_after (ts : list Transaction) (w : World register_file) :
  registers (after w ts) = stored ts (registers w).
Proof.
  revert w. induction ts as [| t ts IH]; intros w; [reflexivity |].
  change (t :: ts) with ([t] ++ ts).
  rewrite <- (after_after (P := SP)), IH, rf_after_one, stored_app.
  reflexivity.
Qed.

Lemma rf_read_after (a : Z) (ts : list Transaction) (w : World register_file) :
  read_value register_file a (device (after w ts)) =
  u8 (stored ts (registers w) a).
Proof.
  rewrite rf_read_value. change (rf_regs (device (after w ts)))
    with (registers (after w ts)).
  rewrite rf_registers_after. reflexivity.
Qed.

Lemma rf_read_now (a : Z) (w : World register_file) :
  read_value register_file a (device w) = u8 (registers w a).
Proof. apply rf_read_value. Qed.

(** On a storing device the time and date read from the current-time block
    are the decodings of the six time-keeping registers as they stand. *)
Lemma rf_time_current (tm : FORMAT_Time) (w : World register_file) :
  fst (mcp7940_time (P := SP) tm MCP7940_Register_Current_Time w) =
  {| hour := mcp7940_tobinary (u8 (registers w MCP7940_RTCHOUR))
               MCP7940_HRTEN_bm;
     minute := mcp7940_tobinary (u8 (registers w MCP7940_RTCMIN))
                 MCP7940_MINTEN_bm;
     second := mcp7940_tobinary (u8 (registers w MCP7940_RTCSEC))
                 MCP7940_SECTEN_bm |}.
Proof.
  unfold mcp7940_time, mcp7940_hour, mcp7940_minute, mcp7940_second,
    bind, ret.
  rewrite !(run_data (P := SP)), !(after_after (P := SP)).
  cbn [fst set_hour set_minute set_second hour minute second app].
  change (@bus_device SP) with register_file.
  rewrite rf_read_now, !rf_read_after.
  rewrite !stored_reads by reflexivity. reflexivity.
Qed.

Lemma rf_date_current (dt : FORMAT_Date) (w : World register_file) :
  fst (mcp7940_date (P := SP) dt MCP7940_Register_Current_Time w) =
  {| day := mcp7940_tobinary (u8 (registers w MCP7940_RTCDATE))
              MCP7940_DATETEN_bm;
     month := mcp7940_tobinary (u8 (registers w MCP7940_RTCMTH))
                MCP7940_MTHTEN_bm;
     year := mcp7940_tobinary (u8 (registers w MCP7940_RTCYEAR))
               MCP7940_YRTEN_bm |}.
Proof.
  unfold mcp7940_date, mcp7940_day, mcp7940_month, mcp7940_year, bind, ret.
  rewrite !(run_data (P := SP)), !(after_after (P := SP)).
  cbn [fst set_day set_month set_year day month year app].
  change (@bus_device SP) with register_file.
  rewrite rf_read_now, !rf_read_after.
  rewrite !stored_reads by reflexivity. reflexivity.
Qed.

Lemma rf_settime_time (t tm : FORMAT_Time) (w : World register_file) :
  range_validate_time t = RETURN_Valid ->
  fst (mcp7940_time (P := SP) tm MCP7940_Register_Current_Time
         (snd (mcp7940_settime (P := SP) t w))) = t.
Proof.
  intros Hvalid.
  destruct (range_validate_time_valid t Hvalid) as (Hh & Hm & Hs).
  pose proof (run_settime_valid (P := SP) t w Hvalid) as Hrun.
  cbv zeta in Hrun. rewrite Hrun. cbn [snd].
  rewrite rf_time_current, rf_registers_after.
  change (@bus_device SP) with register_file.
  rewrite rf_read_after.
  unfold oscillator_register, oscillator_bit.
  cbn [config storing_platform].
  assert (mcp7940_tobinary (mcp7940_tobcd (hour t)) MCP7940_HRTEN_bm = hour t)
    as Eh by (apply tobinary_tobcd_covers;
              [lia | apply (tens_mask_covers Field_Hour); exact Hh]).
  assert (mcp7940_tobinary (mcp7940_tobcd (minute t)) MCP7940_MINTEN_bm
          = minute t)
    as Em by (apply tobinary_tobcd_covers;
              [lia | apply (tens_mask_covers Field_Minute); exact Hm]).
  assert (mcp7940_tobinary (mcp7940_tobcd (second t)) MCP7940_SECTEN_bm
          = second t)
    as Es by (apply tobinary_tobcd_covers;
              [lia | apply (tens_mask_covers Field_Second); exact Hs]).
  destruct (MCP7940_USE_EXTOSC cfg);
    cbv [stored fold_left app];
    repeat first [ rewrite rf_store_eq
                 | rewrite rf_store_neq by discriminate ];
    rewrite !tobcd_byte, Eh, Em.
  - rewrite Es. destruct t; reflexivity.
  - destruct (update_flag_spec true 7 (mcp7940_tobcd (second t)) ltac:(lia)
                ltac:(rewrite <- tobcd_byte; apply u8_byte))
      as (Hbyte & _ & Hkeep).
    rewrite (tobinary_bits_ext _ (mcp7940_tobcd (second t))).
    + rewrite Es. destruct t; reflexivity.
    + intros k Hk Hmask.
      assert (k <> 7) as Hne by (intros ->; discriminate Hmask).
      rewrite (u8_small _ Hbyte). apply Hkeep; assumption.
Qed.

(** A time written with [mcp7940_settime] is the time [mcp7940_time] reads
    back from the current-time block, for every time in range, every prior
    register contents and either oscillator build: the start bit the
    oscillator call sets in the seconds register does not disturb the
    decoded second. *)
Theorem settime_time_roundtrip
  (t tm : FORMAT_Time) (w : World register_file) :
  range_validate_time t = RETURN_Valid ->
  fst (mcp7940_settime (P := SP) t w) = MCP7940_Error_None /\
  fst (mcp7940_time (P := SP) tm MCP7940_Register_Current_Time
         (snd (mcp7940_settime (P := SP) t w))) = t.
Proof.
  intros Hvalid. split.
  - rewrite (settime_result (P := SP)).
    change (@validate_time SP) with range_validate_time.
    rewrite Hvalid. reflexivity.
  - apply rf_settime_time. exact Hvalid.
Qed.

Lemma rf_run_setdate (d : FORMAT_Date) (w : World register_file) :
  range_validate_date d = RETURN_Valid ->
  mcp7940_setdate (P := SP) d w =
    (MCP7940_Error_None,
     after w [Tx_write MCP7940_RTCDATE (mcp7940_tobcd (day d));
              Tx_write MCP7940_RTCMTH (mcp7940_tobcd (month d));
              Tx_write MCP7940_RTCYEAR (mcp7940_tobcd (year d))]).
Proof.
  intros Hvalid. unfold mcp7940_setdate, bind, ret.
  change (@validate_date SP) with range_validate_date.
  rewrite Hvalid, (run_setdata (P := SP)). reflexivity.
Qed.

Lemma rf_setdate_date (d dt : FORMAT_Date) (w : World register_file) :
  range_validate_date d = RETURN_Valid ->
  fst (mcp7940_date (P := SP) dt MCP7940_Register_Current_Time
         (snd (mcp7940_setdate (P := SP) d w))) = d.
Proof.
  intros Hvalid.
  destruct (range_validate_date_valid d Hvalid) as (Hd & Hm & Hy).
  rewrite (rf_run_setdate d w Hvalid). cbn [snd].
  rewrite rf_date_current, rf_registers_after.
  cbv [stored fold_left app].
  repeat first [ rewrite rf_store_eq
               | rewrite rf_store_neq by discriminate ].
  rewrite !tobcd_byte.
  rewrite (tobinary_tobcd_covers (day d))
    by (try lia; apply (tens_mask_covers Field_Day); exact Hd).
  rewrite (tobinary_tobcd_covers (month d))
    by (try lia; apply (tens_mask_covers Field_Month); exact Hm).
  rewrite (tobinary_tobcd_covers (year d))
    by (try lia; apply (tens_mask_covers Field_Year); exact Hy).
  destruct d; reflexivity.
Qed.

(** A date written with [mcp7940_setdate] is the date [mcp7940_date] reads
    back from the current-time block, for every date in range and every
    prior register contents. *)
Theorem setdate_date_roundtrip
  (d dt : FORMAT_Date) (w : World register_file) :
  range_validate_date d = RETURN_Valid ->
  fst (mcp7940_setdate (P := SP) d w) = MCP7940_Error_None /\
  fst (mcp7940_date (P := SP) dt MCP7940_Register_Current_Time
         (snd (mcp7940_setdate (P := SP) d w))) = d.
Proof.
  intros Hvalid. split.
  - rewrite (rf_run_setdate d w Hvalid). reflexivity.
  - apply rf_setdate_date. exact Hvalid.
Qed.

(** Starting or stopping the oscillator does not change the time the driver
    reads: the call rewrites at most the seconds register, and there only the
    start bit, which the decoder masks out. *)
Theorem oscillator_keeps_time
  (mode : MCP7940_Mode) (tm : FORMAT_Time) (w : World register_file) :
  fst (mcp7940_time (P := SP) tm MCP7940_Register_Current_Time
         (snd (mcp7940_oscillator (P := SP) mode w))) =
  fst (mcp7940_time (P := SP) tm MCP7940_Register_Current_Time w).
Proof.
  pose proof (run_oscillator (P := SP) mode w) as Hrun. cbv zeta in Hrun.
  rewrite Hrun. cbn [snd]. rewrite !rf_time_current, rf_registers_after.
  change (@bus_device SP) with register_file.
  rewrite rf_read_now.
  unfold oscillator_register, oscillator_bit.
  cbn [config storing_platform].
  destruct (MCP7940_USE_EXTOSC cfg);
    cbv [stored fold_left app];
    repeat first [ rewrite rf_store_eq
                 | rewrite rf_store_neq by discriminate ];
    [reflexivity |].
  destruct (update_flag_spec (mode_enabled mode) 7
              (u8 (registers w MCP7940_RTCSEC)) ltac:(lia) (u8_byte _))
    as (Hbyte & _ & Hkeep).
  f_equal. apply tobinary_bits_ext. intros k Hk Hmask.
  assert (k <> 7) as Hne by (intros ->; discriminate Hmask).
  rewrite (u8_small _ Hbyte). apply Hkeep; assumption.
Qed.

(** *** Weekday and status on a storing device *)

Lemma run_setweekday (wd : Z) (w : World register_file) :
  0 <= wd <= 6 ->
  let temp := u8 (registers w MCP7940_RTCWKDAY) in
  let written := Z.lor (Z.land 0xF8 temp) (wd + 1) in
  mcp7940_setweekday (P := SP) wd w =
    (MCP7940_Error_None,
     after w [Tx_read MCP7940_RTCWKDAY temp;
              Tx_write MCP7940_RTCWKDAY written]) /\
  is_byte written /\
  Z.land written 0x07 = wd + 1 /\
  Z.land written 0xF8 = Z.land temp 0xF8.
Proof.
  intros Hwd temp written.
  destruct (weekday_merge temp wd (u8_byte _) Hwd) as (Hu8 & Hlow & Hhigh).
  fold written in Hu8, Hlow, Hhigh.
  split; [| split; [rewrite <- Hu8; apply u8_byte | split; assumption]].
  unfold mcp7940_setweekday, bind, ret.
  destruct (Z.leb_spec 7 wd) as [Hge | _]; [lia |].
  rewrite (run_read (P := SP)).
  change (@bus_device SP) with register_file. rewrite rf_read_now.
  fold temp. rewrite Hu8, (run_write (P := SP)), (after_after (P := SP)).
  reflexivity.
Qed.

Lemma rf_status (w : World register_file) :
  fst (mcp7940_status (P := SP) w) =
  Z.land (u8 (registers w MCP7940_RTCWKDAY)) 0x38.
Proof.
  unfold mcp7940_status, bind, ret. rewrite (run_read (P := SP)).
  cbn [fst]. change (@bus_device SP) with register_file.
  rewrite rf_read_now. reflexivity.
Qed.

Lemma land_submask (x y m n : Z) :
  Z.land n m = n -> Z.land x m = Z.land y m -> Z.land x n = Z.land y n.
Proof.
  intros Hn Hxy. rewrite <- Hn, (Z.land_comm n m), !Z.land_assoc, Hxy.
  reflexivity.
Qed.

(** After [mcp7940_setweekday] with an index in [0,6], the weekday read
    from the current-time block is the index plus one, the status flags are
    what they were, and no register other than the weekday register has
    changed. *)
Theorem setweekday_weekday_roundtrip (wd : Z) (w : World register_file) :
  0 <= wd <= 6 ->
  let w' := snd (mcp7940_setweekday (P := SP) wd w) in
  fst (mcp7940_weekday (P := SP) MCP7940_Register_Current_Time w') = wd + 1 /\
  fst (mcp7940_status (P := SP) w') = fst (mcp7940_status (P := SP) w) /\
  forall a, a <> MCP7940_RTCWKDAY -> registers w' a = registers w a.
Proof.
  intros Hwd w'. subst w'.
  destruct (run_setweekday wd w Hwd) as (Hrun & Hbyte & Hlow & Hhigh).
  rewrite Hrun. cbn [snd]. rewrite !rf_status, rf_registers_after.
  cbv [stored fold_left]. rewrite rf_store_eq.
  split; [| split].
  - unfold mcp7940_weekday, bind, ret. rewrite (run_read (P := SP)).
    cbn [fst]. change (@bus_device SP) with register_file.
    rewrite rf_read_now, rf_registers_after.
    cbv [stored fold_left]. rewrite rf_store_eq, (u8_small _ Hbyte).
    rewrite Z.land_comm. exact Hlow.
  - rewrite (u8_small _ Hbyte).
    apply (land_submask _ _ 0xF8 0x38); [reflexivity | exact Hhigh].
  - intros a Ha. apply rf_store_neq. exact Ha.
Qed.

(** After [mcp7940_battery] the status reports the battery flag as
    requested, and the power-fail and oscillator-running flags as they were
    before. *)
Theorem battery_then_status (mode : MCP7940_Mode) (w : World register_file) :
  let before := fst (mcp7940_status (P := SP) w) in
  let after_ := fst (mcp7940_status (P := SP)
                       (snd (mcp7940_battery (P := SP) mode w))) in
  Z.testbit after_ 3 =
    match mode with
    | MCP7940_Mode_Enable => true
    | MCP7940_Mode_Disable => false
    end /\
  Z.testbit after_ 4 = Z.testbit before 4 /\
  Z.testbit after_ 5 = Z.testbit before 5.
Proof.
  intros before after_. subst before after_.
  pose proof (run_battery (P := SP) mode w) as Hrun. cbv zeta in Hrun.
  rewrite Hrun. cbn [snd]. rewrite !rf_status, rf_registers_after.
  change (@bus_device SP) with register_file.
  rewrite rf_read_now.
  destruct (update_flag_spec (mode_enabled mode) 3
              (u8 (registers w MCP7940_RTCWKDAY)) ltac:(lia) (u8_byte _))
    as (Hbyte & Hbit & Hkeep).
  cbv [stored fold_left]. rewrite rf_store_eq, (u8_small _ Hbyte).
  rewrite !Z.land_spec.
  change (Z.testbit 0x38 3) with true. change (Z.testbit 0x38 4) with true.
  change (Z.testbit 0x38 5) with true. rewrite !andb_true_r.
  split; [rewrite Hbit; destruct mode; reflexivity |].
  split; apply Hkeep; lia.
Qed.

(** On a storing device [mcp7940_trimming] succeeds for every direction and
    every magnitude byte, and the trim register then holds the byte
    written. *)
Theorem trimming_succeeds_when_stored
  (mode : MCP7940_Trim) (v : Z) (w : World register_file) :
  let w' := snd (mcp7940_trimming (P := SP) mode v w) in
  fst (mcp7940_trimming (P := SP) mode v w) = MCP7940_Error_None /\
  Z.land (registers w' MCP7940_OSCTRIM) 0x7F = v mod 128 /\
  Z.testbit (registers w' MCP7940_OSCTRIM) 7 =
    match mode with MCP7940_Trim_Add => true | _ => false end /\
  forall a, a <> MCP7940_OSCTRIM -> registers w' a = registers w a.
Proof.
  intros w'. subst w'.
  destruct (trim_byte_spec mode v) as (Hbyte & Hlow & Hsign).
  pose proof (run_trimming (P := SP) mode v w) as Hrun. cbv zeta in Hrun.
  rewrite Hrun. cbn [fst snd].
  change (@bus_device SP) with register_file in *.
  rewrite rf_read_after, rf_registers_after.
  cbv [stored fold_left]. rewrite !rf_store_eq.
  rewrite (u8_small _ Hbyte), Z.eqb_refl.
  split; [reflexivity |]. split; [exact Hlow |]. split; [exact Hsign |].
  intros a Ha. apply rf_store_neq. exact Ha.
Qed.

(** *** Time and date together *)

Lemma datetime_unfold (dtm : FORMAT_DateTime) (reg : MCP7940_Register)
  (w : World register_file) :
  fst (mcp7940_datetime (P := SP) dtm reg w) =
  {| time := fst (mcp7940_time (P := SP) (time dtm) reg w);
     date := fst (mcp7940_date (P := SP) (date dtm) reg
                    (snd (mcp7940_time (P := SP) (time dtm) reg w))) |}.
Proof.
  unfold mcp7940_datetime, bind, ret.
  destruct (mcp7940_time (P := SP) (time dtm) reg w) as [t w1].
  cbn [fst snd].
  destruct (mcp7940_date (P := SP) (date dtm) reg w1) as [d w2]. reflexivity.
Qed.

Lemma rf_time_keeps_registers (tm : FORMAT_Time) (reg : MCP7940_Register)
  (w : World register_file) :
  registers (snd (mcp7940_time (P := SP) tm reg w)) = registers w.
Proof.
  unfold mcp7940_time, mcp7940_hour, mcp7940_minute, mcp7940_second,
    bind, ret.
  destruct reg; rewrite !(run_data (P := SP)), !(after_after (P := SP));
    cbn [snd app]; rewrite rf_registers_after;
    apply stored_reads; reflexivity.
Qed.

(** A time and date written with [mcp7940_setdatetime] are what
    [mcp7940_datetime] reads back from the current-time block, for every
    time and date in range: the date write leaves the time registers alone
    and the reads change nothing. *)
Theorem setdatetime_datetime_roundtrip
  (dtm dtm0 : FORMAT_DateTime) (w : World register_file) :
  range_validate_time (time dtm) = RETURN_Valid ->
  range_validate_date (date dtm) = RETURN_Valid ->
  fst (mcp7940_setdatetime (P := SP) dtm w) = 0 /\
  fst (mcp7940_datetime (P := SP) dtm0 MCP7940_Register_Current_Time
         (snd (mcp7940_setdatetime (P := SP) dtm w))) = dtm.
Proof.
  intros Ht Hd. rewrite (setdatetime_unfold (P := SP)). cbn [fst snd].
  set (w1 := snd (mcp7940_settime (P := SP) (time dtm) w)).
  split.
  - rewrite (settime_result (P := SP)), (setdate_result (P := SP)).
    change (@validate_time SP) with range_validate_time.
    change (@validate_date SP) with range_validate_date.
    rewrite Ht, Hd. reflexivity.
  - rewrite datetime_unfold.
    pose proof (rf_setdate_date (date dtm) (date dtm0) w1 Hd) as Hdate.
    pose proof (rf_settime_time (time dtm) (time dtm0) w Ht) as Htime.
    fold w1 in Htime.
    rewrite rf_date_current, rf_time_keeps_registers.
    rewrite rf_date_current in Hdate. rewrite Hdate.
    rewrite rf_time_current in Htime |- *.
    assert (forall a, a = MCP7940_RTCHOUR \/ a = MCP7940_RTCMIN \/
                      a = MCP7940_RTCSEC ->
                      registers (snd (mcp7940_setdate (P := SP) (date dtm) w1))
                        a = registers w1 a) as Hframe.
    { intros a Ha. rewrite (rf_run_setdate (date dtm) w1 Hd). cbn [snd].
      rewrite rf_registers_after. cbv [stored fold_left].
      destruct Ha as [-> | [-> | ->]];
        repeat rewrite rf_store_neq by discriminate; reflexivity. }
    rewrite !Hframe by tauto. rewrite Htime.
    destruct dtm; reflexivity.
Qed.

End StoringDevice.

(** ** The further properties at concrete inputs *)

Lemma settime_valid_sequence_witness :
  let t := {| hour := 23; minute := 59; second := 58 |} in
  let w := rf_world (fun _ => 0) in
  range_validate_time t = RETURN_Valid /\
  exists o',
    mcp7940_settime (P := register_file_platform) t w =
      (MCP7940_Error_None,
       after w [Tx_write MCP7940_RTCHOUR 0x23; Tx_write MCP7940_RTCMIN 0x59;
                Tx_write MCP7940_RTCSEC 0x58; Tx_read MCP7940_RTCSEC 0x58;
                Tx_write MCP7940_RTCSEC o']) /\
    Z.testbit o' 7 = true.
Proof.
  intros t w.
  assert (range_validate_time t = RETURN_Valid) as Hvalid by reflexivity.
  split; [exact Hvalid |].
  destruct (settime_valid_sequence (P := register_file_platform) t w Hvalid)
    as (o' & Hrun & _ & Hbit & _).
  exists o'. split; [exact Hrun | exact Hbit].
Defined.

Lemma setdatetime_partial_write_witness :
  let dtm := {| time := {| hour := 24; minute := 0; second := 0 |};
                date := {| day := 29; month := 2; year := 24 |} |} in
  let w := rf_world (fun _ => 0) in
  range_validate_time (time dtm) <> RETURN_Valid /\
  range_validate_date (date dtm) = RETURN_Valid /\
  mcp7940_setdatetime (P := register_file_platform) dtm w =
    (1, after w [Tx_write MCP7940_RTCDATE 0x29; Tx_write MCP7940_RTCMTH 0x02;
                 Tx_write MCP7940_RTCYEAR 0x24]).
Proof.
  intros dtm w.
  assert (range_validate_time (time dtm) <> RETURN_Valid) as Ht
    by discriminate.
  assert (range_validate_date (date dtm) = RETURN_Valid) as Hd
    by reflexivity.
  split; [exact Ht |]. split; [exact Hd |].
  exact (proj1 (setdatetime_partial_write (P := register_file_platform)
                  dtm w) Ht Hd).
Defined.

Lemma settime_time_roundtrip_witness :
  let t := {| hour := 23; minute := 59; second := 58 |} in
  let w := rf_world (fun _ => 0xFF) in
  range_validate_time t = RETURN_Valid /\
  fst (mcp7940_time (P := register_file_platform)
         {| hour := 0; minute := 0; second := 0 |}
         MCP7940_Register_Current_Time
         (snd (mcp7940_settime (P := register_file_platform) t w))) = t.
Proof.
  intros t w.
  assert (range_validate_time t = RETURN_Valid) as Hvalid by reflexivity.
  split; [exact Hvalid |].
  exact (proj2 (settime_time_roundtrip default_config t
                  {| hour := 0; minute := 0; second := 0 |} w Hvalid)).
Defined.

Lemma setdate_date_roundtrip_witness :
  let d := {| day := 31; month := 12; year := 99 |} in
  let w := rf_world (fun _ => 0xFF) in
  range_validate_date d = RETURN_Valid /\
  fst (mcp7940_date (P := register_file_platform)
         {| day := 0; month := 0; year := 0 |}
         MCP7940_Register_Current_Time
         (snd (mcp7940_setdate (P := register_file_platform) d w))) = d.
Proof.
  intros d w.
  assert (range_validate_date d = RETURN_Valid) as Hvalid by reflexivity.
  split; [exact Hvalid |].
  exact (proj2 (setdate_date_roundtrip default_config d
                  {| day := 0; month := 0; year := 0 |} w Hvalid)).
Defined.

Lemma setdatetime_datetime_roundtrip_witness :
  let dtm := {| time := {| hour := 23; minute := 59; second := 58 |};
                date := {| day := 31; month := 12; year := 99 |} |} in
  let w := rf_world (fun _ => 0xFF) in
  range_validate_time (time dtm) = RETURN_Valid /\
  range_validate_date (date dtm) = RETURN_Valid /\
  fst (mcp7940_datetime (P := register_file_platform) dtm
         MCP7940_Register_Current_Time
         (snd (mcp7940_setdatetime (P := register_file_platform) dtm w)))
  = dtm.
Proof.
  intros dtm w.
  assert (range_validate_time (time dtm) = RETURN_Valid) as Ht by reflexivity.
  assert (range_validate_date (date dtm) = RETURN_Valid) as Hd by reflexivity.
  split; [exact Ht |]. split; [exact Hd |].
  exact (proj2 (setdatetime_datetime_roundtrip default_config dtm dtm w
                  Ht Hd)).
Defined.

Lemma setweekday_weekday_roundtrip_witness :
  let w := rf_world (fun _ => 0x38) in
  0 <= 6 <= 6 /\
  fst (mcp7940_weekday (P := register_file_platform)
         MCP7940_Register_Current_Time
         (snd (mcp7940_setweekday (P := register_file_platform) 6 w))) = 7.
Proof.
  intros w. split; [lia |].
  exact (proj1 (setweekday_weekday_roundtrip default_config 6 w
                  ltac:(lia))).
Defined.
